(** * The heuristic misinformation engine of [ai_misinformation_tool_react_single_file.jsx]

    A shallow embedding of [clamp], [fakeConfidenceFromSignals],
    [mockAnalyze] and the state handling of the component [App], together
    with the few JavaScript built-ins they call
    ([String.prototype.toLowerCase], [trim], [includes], [match] on two fixed
    regular expressions, [Array.prototype.includes] and the [Date]
    constructor on an ISO date), followed by the properties of the engine.

    Conventions of the model.
    - A JavaScript string is the list of its UTF-16 code units, so the
      length of the list is the JavaScript [length].  Texts are written
      with [Js.lit] from a literal of ASCII characters.
    - Numbers that the engine computes are small integers; they are in [Z].
    - [new Date()] is the parameter [now], in milliseconds since the epoch.
    - The [await] on a 650 ms timer at the head of [mockAnalyze] has no
      effect on the value returned and is left out. *)

From Stdlib Require Import ZArith NArith List Bool Ascii String Lia.
From Stdlib Require Import Numbers.DecimalString Sorting.Permutation.
Import ListNotations.

Local Open Scope string_scope.
Local Open Scope list_scope.
Local Open Scope Z_scope.

(** ** JavaScript built-ins *)

Module Js.

(** A UTF-16 code unit, by its number. *)
Definition codeunit : Type := N.

Definition str : Type := list codeunit.

(** The code unit of an ASCII character, and the text of a literal. *)
Definition unitOf (c : ascii) : codeunit := N_of_ascii c.

Definition lit (s : string) : str := map unitOf (list_ascii_of_string s).

Definition between (lo hi n : N) : bool :=
  (N.leb lo n && N.leb n hi)%bool.

(** [WhiteSpace] and [LineTerminator], which are what [trim] strips: TAB,
    LF, VT, FF, CR, SP, NBSP, U+1680, U+2000..U+200A, U+2028, U+2029,
    U+202F, U+205F, U+3000 and U+FEFF. *)
Definition isWhiteSpace (c : codeunit) : bool :=
  (between 9 13 c || N.eqb c 32 || N.eqb c 160 || N.eqb c 5760
   || between 8192 8202 c || N.eqb c 8232 || N.eqb c 8233 || N.eqb c 8239
   || N.eqb c 8287 || N.eqb c 12288 || N.eqb c 65279)%bool.

(** [\d] of a regular expression without the [u] flag: the ten ASCII digits. *)
Definition isDigit (c : codeunit) : bool := between 48 57 c.

(** The lower case of a code unit.  A-Z and the Latin-1 capitals
    U+00C0..U+00DE (but the multiplication sign U+00D7) move up by 32;
    U+0130, the capital I with a dot above, becomes the two units i and
    U+0307; U+212A, the Kelvin sign, becomes k.

    Every other code unit is left as it is.  Unicode gives some of them a
    lower case of their own, which is again one unit, never a unit below
    128 and never white space; the engine reads the lower-cased text
    through tests on units below 128, on white space and on the length
    only, and none of these tells such a unit from its lower case, as the
    last section of this file shows. *)
Definition toLowerUnits (c : codeunit) : list codeunit :=
  if (between 65 90 c || (between 192 222 c && negb (N.eqb c 215)))%bool
  then [(c + 32)%N]
  else if N.eqb c 304 then [105; 775]%N
  else if N.eqb c 8490 then [107]%N
  else [c].

Definition toLowerCase (s : str) : str := flat_map toLowerUnits s.

Fixpoint trimStart (s : str) : str :=
  match s with
  | [] => []
  | c :: s' => if isWhiteSpace c then trimStart s' else s
  end.

Fixpoint trimEnd (s : str) : str :=
  match s with
  | [] => []
  | c :: s' =>
      match trimEnd s' with
      | [] => if isWhiteSpace c then [] else [c]
      | r => c :: r
      end
  end.

Definition trim (s : str) : str := trimEnd (trimStart s).

(** [sub] stands at the head of [s]. *)
Fixpoint startsWith (sub s : str) : bool :=
  match sub, s with
  | [], _ => true
  | _ :: _, [] => false
  | a :: sub', b :: s' => (N.eqb a b && startsWith sub' s')%bool
  end.

(** [s.includes(sub)]: [sub] occurs in [s] at some position. *)
Fixpoint includes (s sub : str) : bool :=
  (startsWith sub s ||
   match s with
   | [] => false
   | _ :: s' => includes s' sub
   end)%bool.

(** *** Values

    The values a caller can hand over as [content].  A number is kept when
    it holds a safe integer, whose [toString] is its decimal writing.
    Every value of another kind (NaN, a fraction, a number past the safe
    integers, a BigInt, a symbol, an object, an array, a function) is
    [Other]: the engine reads it through [ToBoolean] and through a call of
    its [toString] method only, so it is given by its truth value and by
    what that call returns: a string, or [None] when the call throws, when
    there is no such method to call, or when what it returns is not a
    string, so that the call of [toLowerCase] on it throws. *)
Definition maxSafeInteger : Z := 9007199254740991.

Record SafeInt : Type := mkSafe {
  intVal : Z;
  intSafe : (Z.abs intVal <=? maxSafeInteger) = true
}.

Inductive value : Type :=
| Undefined
| Null
| Bool (b : bool)
| Num (n : SafeInt)
| Str (s : str)
| Other (truth : bool) (toStr : option str).

(** [ToBoolean]. *)
Definition truthy (v : value) : bool :=
  match v with
  | Undefined | Null => false
  | Bool b => b
  | Num n => negb (intVal n =? 0)
  | Str s => match s with [] => false | _ :: _ => true end
  | Other truth _ => truth
  end.

(** [a || b]. *)
Definition or (a b : value) : value := if truthy a then a else b.

(** The decimal writing of an integer. *)
Definition decimal (n : Z) : str := lit (NilZero.string_of_int (Z.to_int n)).

(** [v.toString()], when it returns a string.  On [undefined] and [null]
    the member access throws. *)
Definition toString (v : value) : option str :=
  match v with
  | Undefined | Null => None
  | Bool true => Some (lit "true")
  | Bool false => Some (lit "false")
  | Num n => Some (decimal (intVal n))
  | Str s => Some s
  | Other _ toStr => toStr
  end.

(** A value that the first line of [mockAnalyze] reads without throwing:
    when it is truthy, its [toString] returns a string.  Every value that is
    [undefined], [null], a boolean, a safe integer or a string is one. *)
Definition readable (v : value) : Prop :=
  truthy v = true -> toString v <> None.

(** *** Regular expressions

    The two expressions of the engine are sequences of single-character
    items, either [\d] or a literal, without quantifier or alternative, so a
    match is a window of fixed length and the first match is the leftmost
    one. *)
Inductive item : Type :=
| Digit
| Lit (c : codeunit).

Definition regex : Type := list item.

Definition item_matches (i : item) (c : codeunit) : bool :=
  match i with
  | Digit => isDigit c
  | Lit d => N.eqb d c
  end.

(** The text matched by [r] at the head of [s], if any. *)
Fixpoint matchHere (r : regex) (s : str) : option str :=
  match r with
  | [] => Some []
  | i :: r' =>
      match s with
      | [] => None
      | c :: s' =>
          if item_matches i c
          then option_map (cons c) (matchHere r' s')
          else None
      end
  end.

(** [s.match(r)] for a non-global [r]: the text of the leftmost match, or
    [None] for [null]. *)
Fixpoint regexMatch (r : regex) (s : str) : option str :=
  match matchHere r s with
  | Some m => Some m
  | None =>
      match s with
      | [] => None
      | _ :: s' => regexMatch r s'
      end
  end.

(** *** Dates

    Time values are milliseconds since 1970-01-01T00:00:00Z.  The day
    arithmetic is ECMA-262's ([DayFromYear], [InLeapYear], [MakeDay],
    [MakeDate]). *)
Definition msPerDay : Z := 86400000.

Definition DayFromYear (y : Z) : Z :=
  365 * (y - 1970) + (y - 1969) / 4 - (y - 1901) / 100 + (y - 1601) / 400.

Definition InLeapYear (y : Z) : bool :=
  ((y mod 4 =? 0) && (negb (y mod 100 =? 0) || (y mod 400 =? 0)))%bool.

(** Days from the start of the year to the start of month [m] (1..12). *)
Definition monthStart (leap : bool) (m : Z) : Z :=
  let l := if leap then 1 else 0 in
  match m with
  | 1 => 0
  | 2 => 31
  | 3 => 59 + l
  | 4 => 90 + l
  | 5 => 120 + l
  | 6 => 151 + l
  | 7 => 181 + l
  | 8 => 212 + l
  | 9 => 243 + l
  | 10 => 273 + l
  | 11 => 304 + l
  | _ => 334 + l
  end.

Definition MakeDay (y m d : Z) : Z :=
  DayFromYear y + monthStart (InLeapYear y) m + d - 1.

Definition digitVal (c : codeunit) : Z := Z.of_N c - 48.

(** The value of a string of digits, most significant first. *)
Fixpoint digitsVal (acc : Z) (s : str) : Z :=
  match s with
  | [] => acc
  | c :: s' => digitsVal (10 * acc + digitVal c) s'
  end.

(** [s.substring(from, from + len)]. *)
Definition substring (from len : nat) (s : str) : str :=
  firstn len (skipn from s).

Definition hyphen : codeunit := unitOf "-".

Definition isoDate : regex :=
  [Digit; Digit; Digit; Digit; Lit hyphen; Digit; Digit; Lit hyphen; Digit; Digit].

(** The time value of [new Date(s)] for [s] in the date-only form
    [YYYY-MM-DD], which is read as UTC midnight; [None] stands for an
    Invalid Date (time value NaN).  The month must be 01..12 and the day
    01..31; a day past the end of a short month carries into the next
    month, as [MakeDay] does.  Strings of any other shape are not given to
    the constructor by the engine and are [None] here. *)
Definition Date_parse (s : str) : option Z :=
  match matchHere isoDate s with
  | Some m =>
      if Nat.eqb (List.length s) (List.length m) then
        let y := digitsVal 0 (substring 0 4 s) in
        let mo := digitsVal 0 (substring 5 2 s) in
        let d := digitsVal 0 (substring 8 2 s) in
        if ((1 <=? mo) && (mo <=? 12) && (1 <=? d) && (d <=? 31))%bool
        then Some (MakeDay y mo d * msPerDay)
        else None
      else None
  | None => None
  end.

(** [d > t] for a date [d] and a time value [t]: false on an Invalid Date. *)
Definition Date_gt (d : option Z) (t : Z) : bool :=
  match d with
  | Some ms => t <? ms
  | None => false
  end.

End Js.

(** ** The engine *)

(** The seven tags that [mockAnalyze] pushes on its [signals] array. *)
Inductive Signal : Type :=
| TooShort
| Clickbait
| NoSources
| FabricatedDates
| ImageManipulated
| AuthoritativeSources
| ManyContradictions.

(** The string that stands for each tag in the source. *)
Definition tag (s : Signal) : Js.str :=
  match s with
  | TooShort => Js.lit "too-short"
  | Clickbait => Js.lit "clickbait-y"
  | NoSources => Js.lit "no-sources"
  | FabricatedDates => Js.lit "fabricated-dates"
  | ImageManipulated => Js.lit "image-manipulated"
  | AuthoritativeSources => Js.lit "authoritative-sources"
  | ManyContradictions => Js.lit "many-contradictions"
  end.

Definition Signal_eqb (a b : Signal) : bool :=
  match a, b with
  | TooShort, TooShort
  | Clickbait, Clickbait
  | NoSources, NoSources
  | FabricatedDates, FabricatedDates
  | ImageManipulated, ImageManipulated
  | AuthoritativeSources, AuthoritativeSources
  | ManyContradictions, ManyContradictions => true
  | _, _ => false
  end.

(** [signals.includes(s)]. *)
Definition has (signals : list Signal) (s : Signal) : bool :=
  existsb (Signal_eqb s) signals.

(** [signals.push(s)] under a condition: the array grows at its end. *)
Definition pushIf {A : Type} (b : bool) (x : A) (l : list A) : list A :=
  if b then l ++ [x] else l.

Definition clamp (n a b : Z) : Z := Z.max a (Z.min b n).

Definition fakeConfidenceFromSignals (signals : list Signal) : Z :=
  let score := 50 in
  let score := if has signals ManyContradictions then score - 30 else score in
  let score := if has signals AuthoritativeSources then score + 25 else score in
  let score := if has signals FabricatedDates then score - 20 else score in
  let score := if has signals NoSources then score - 15 else score in
  let score := if has signals ImageManipulated then score - 25 else score in
  clamp score 0 100.

Inductive Verdict : Type :=
| LikelyReal
| LikelyFake
| NeedsReview.

(** The label shown for each verdict. *)
Definition verdictLabel (v : Verdict) : Js.str :=
  match v with
  | LikelyReal => Js.lit "Likely Real"
  | LikelyFake => Js.lit "Likely Fake"
  | NeedsReview => Js.lit "Unclear / Needs Review"
  end.

(** [confidence >= 60 ? ... : confidence <= 35 ? ... : ...]. *)
Definition verdictOf (confidence : Z) : Verdict :=
  if 60 <=? confidence then LikelyReal
  else if confidence <=? 35 then LikelyFake
  else NeedsReview.

Definition iso20Date : Js.regex :=
  [Js.Lit (Js.unitOf "2"); Js.Lit (Js.unitOf "0"); Js.Digit; Js.Digit;
   Js.Lit Js.hyphen; Js.Digit; Js.Digit; Js.Lit Js.hyphen; Js.Digit; Js.Digit].

(** The date block of [mockAnalyze]: the outer test on any [dddd-dd-dd],
    then the leftmost [20dd-dd-dd], read as a date and compared with the
    clock. *)
Definition futureDateFound (now : Z) (lower : Js.str) : bool :=
  match Js.regexMatch Js.isoDate lower with
  | Some _ =>
      match Js.regexMatch iso20Date lower with
      | Some futureDate => Js.Date_gt (Js.Date_parse futureDate) now
      | None => false
      end
  | None => false
  end.

(** The [signals] array after the seven conditional pushes, for the
    original [content] and its lower-cased text [lower]. *)
Definition collectSignals (now : Z) (content : Js.value) (lower : Js.str)
  : list Signal :=
  let signals := [] in
  let signals :=
    pushIf (negb (Js.truthy content)
            || Nat.ltb (List.length (Js.trim lower)) 10)
           TooShort signals in
  let signals :=
    pushIf (Js.includes lower (Js.lit "shocking")
            || Js.includes lower (Js.lit "you won't believe"))
           Clickbait signals in
  let signals :=
    pushIf (Js.includes lower (Js.lit "according to our sources")
            && negb (Js.includes lower (Js.lit "https")))
           NoSources signals in
  let signals := pushIf (futureDateFound now lower) FabricatedDates signals in
  let signals :=
    pushIf (Js.includes lower (Js.lit "deepfake")
            || Js.includes lower (Js.lit "ai-generated"))
           ImageManipulated signals in
  let signals :=
    pushIf (Js.includes lower (Js.lit "cdc") || Js.includes lower (Js.lit "who")
            || Js.includes lower (Js.lit "nyt"))
           AuthoritativeSources signals in
  let signals :=
    pushIf (Js.includes lower (Js.lit "contradictory")
            || Js.includes lower (Js.lit "but then"))
           ManyContradictions signals in
  signals.

(** U+2014, the dash of the sentences. *)
Definition emDash : Js.str := [8212%N].

(** The sentence pushed for each tag. *)
Definition sentence (s : Signal) : Js.str :=
  match s with
  | TooShort =>
      Js.lit "The text is very short " ++ emDash
      ++ Js.lit " short claims often lack context or sources."
  | Clickbait =>
      Js.lit "Language matches clickbait patterns; be cautious of exaggerated claims."
  | NoSources =>
      Js.lit "Claims use vague 'sources' without links " ++ emDash
      ++ Js.lit " prefer named verifiable sources."
  | FabricatedDates =>
      Js.lit "The text references dates that appear to be in the future or inconsistent."
  | AuthoritativeSources =>
      Js.lit "Mentions recognized organizations " ++ emDash
      ++ Js.lit " try to verify via their official channels."
  | ImageManipulated =>
      Js.lit "Mentions AI-generation or manipulation; images/video may be altered."
  | ManyContradictions =>
      Js.lit "The text contains contradictory statements " ++ emDash
      ++ Js.lit " check multiple reputable sources."
  end.

Definition fallbackSentence : Js.str :=
  Js.lit "No strong heuristic red flags detected in the quick demo check.".

(** The [explanation] array: seven conditional pushes, then the fallback
    when nothing was pushed. *)
Definition explain (signals : list Signal) : list Js.str :=
  let explanation := [] in
  let explanation := pushIf (has signals TooShort) (sentence TooShort) explanation in
  let explanation := pushIf (has signals Clickbait) (sentence Clickbait) explanation in
  let explanation := pushIf (has signals NoSources) (sentence NoSources) explanation in
  let explanation :=
    pushIf (has signals FabricatedDates) (sentence FabricatedDates) explanation in
  let explanation :=
    pushIf (has signals AuthoritativeSources) (sentence AuthoritativeSources)
           explanation in
  let explanation :=
    pushIf (has signals ImageManipulated) (sentence ImageManipulated) explanation in
  let explanation :=
    pushIf (has signals ManyContradictions) (sentence ManyContradictions)
           explanation in
  pushIf (Nat.eqb (List.length explanation) 0) fallbackSentence explanation.

Definition recommendedActionsList : list Js.str :=
  [ Js.lit "Cross-check with 2 reputable outlets (official organizations, verified news sites)";
    Js.lit "Search for the exact claim text in quotes " ++ emDash
    ++ Js.lit " see if original context exists";
    Js.lit "If image/video is claimed, reverse-image-search it or inspect metadata";
    Js.lit "Prefer primary sources (official statements, reports) over social posts" ].

Inductive ContentKind : Type :=
| KText
| KUrl
| KImage.

Record AnalysisRequest : Type := mkRequest {
  type : ContentKind;
  content : Js.value
}.

Record AnalysisResult : Type := mkResult {
  verdict : Verdict;
  confidence : Z;
  signals : list Signal;
  explanation : list Js.str;
  recommendedActions : list Js.str
}.

(** The first line of the body: [(content || "").toString().toLowerCase()].
    [None] stands for a thrown error: a member access on [undefined] or
    [null], or a [toString] that throws or returns no string. *)
Definition lowered (content : Js.value) : option Js.str :=
  option_map Js.toLowerCase (Js.toString (Js.or content (Js.Str []))).

(** [mockAnalyze], with the clock as a parameter; [None] stands for a thrown
    error. *)
Definition mockAnalyze (now : Z) (req : AnalysisRequest) : option AnalysisResult :=
  match lowered (content req) with
  | None => None
  | Some lower =>
      let signals := collectSignals now (content req) lower in
      let confidence := fakeConfidenceFromSignals signals in
      let verdict := verdictOf confidence in
      let explanation := explain signals in
      Some (mkResult verdict confidence signals explanation recommendedActionsList)
  end.

(** The [signals] field of the result for a content value, on its own: the
    signal extraction of the engine. *)
Definition extractSignals (now : Z) (c : Js.value) : option (list Signal) :=
  option_map signals (mockAnalyze now (mkRequest KText c)).

(** The request of the text tab for a text. *)
Definition text (s : Js.str) : AnalysisRequest := mkRequest KText (Js.Str s).

(** A number of eleven digits. *)
Definition elevenDigits : Js.SafeInt := Js.mkSafe 12345678901 eq_refl.

(** 2026-11-02T00:00:00Z, a clock value for the examples. *)
Definition clock2026 : Z := 1793577600000.

(** ** The weights as a table

    The deltas that the five [if]s of [fakeConfidenceFromSignals] apply,
    written as a function of the tag, and their sum over the tags present,
    taken along an enumeration [order] of the tags. *)
Definition delta (s : Signal) : Z :=
  match s with
  | ManyContradictions => -30
  | AuthoritativeSources => 25
  | FabricatedDates => -20
  | NoSources => -15
  | ImageManipulated => -25
  | Clickbait | TooShort => 0
  end.

Definition weighted : list Signal :=
  [ManyContradictions; AuthoritativeSources; FabricatedDates; NoSources;
   ImageManipulated].

Definition presentDelta (signals : list Signal) (s : Signal) : Z :=
  if has signals s then delta s else 0.

Definition deltaSum (order signals : list Signal) : Z :=
  fold_right (fun s acc => presentDelta signals s + acc) 0 order.

(** Removing every occurrence of a tag from the array. *)
Definition without (s : Signal) (signals : list Signal) : list Signal :=
  filter (fun x => negb (Signal_eqb x s)) signals.

(** Two arrays holding the same tags, in any order and multiplicity. *)
Definition sameSignals (l l' : list Signal) : Prop :=
  forall s, In s l <-> In s l'.

(** ** Reference statements

    Definitions that the properties below are stated with. *)

(** [sub] occurs in [s]. *)
Definition occursIn (sub s : Js.str) : Prop :=
  exists a b, s = a ++ sub ++ b.

(** The lines of an explanation built along an enumeration [order] of the
    tags: the sentence of each tag present, in that order, or the fallback
    alone when there is none. *)
Definition explainAlong (order signals : list Signal) : list Js.str :=
  match map sentence (filter (has signals) order) with
  | [] => [fallbackSentence]
  | lines => lines
  end.

(** The order in which the body of [mockAnalyze] tests the tags when it
    builds [explanation]. *)
Definition explainOrder : list Signal :=
  [TooShort; Clickbait; NoSources; FabricatedDates; AuthoritativeSources;
   ImageManipulated; ManyContradictions].

(** The enumeration order of the written description of the engine. *)
Definition statedOrder : list Signal :=
  [Clickbait; NoSources; FabricatedDates; ImageManipulated;
   AuthoritativeSources; ManyContradictions; TooShort].

(** Some window [dddd-dd-dd] of [s], at any position and for any year, reads
    as a date strictly later than [now]. *)
Fixpoint anyFutureIsoDate (now : Z) (s : Js.str) : bool :=
  (match Js.matchHere Js.isoDate s with
   | Some tok => Js.Date_gt (Js.Date_parse tok) now
   | None => false
   end ||
   match s with
   | [] => false
   | _ :: s' => anyFutureIsoDate now s'
   end)%bool.

(** A text that shows a link with a scheme, [http://] or [https://]. *)
Definition urlLike (s : Js.str) : bool :=
  (Js.includes s (Js.lit "http://") || Js.includes s (Js.lit "https://"))%bool.

(** Item [i] accepts no more characters than item [j]. *)
Definition item_le (i j : Js.item) : Prop :=
  forall c, Js.item_matches i c = true -> Js.item_matches j c = true.

(** A result as the description of the engine requires it. *)
Definition wellFormed (r : AnalysisResult) : Prop :=
  0 <= confidence r <= 100 /\
  verdict r = verdictOf (confidence r) /\
  explanation r <> [] /\
  recommendedActions r = recommendedActionsList.

(** U+0130, the capital I with a dot above, and how often a text has it. *)
Definition dottedI : Js.codeunit := 304%N.

Definition dottedCount (s : Js.str) : nat := count_occ N.eq_dec s dottedI.

(** The sum of the deltas of the four tags of negative weight that are
    present. *)
Definition negativeSum (signals : list Signal) : Z :=
  deltaSum [ManyContradictions; FabricatedDates; NoSources; ImageManipulated]
    signals.

(** The order in which the body of [mockAnalyze] tests the tags when it
    fills [signals]. *)
Definition pushOrder : list Signal :=
  [TooShort; Clickbait; NoSources; FabricatedDates; ImageManipulated;
   AuthoritativeSources; ManyContradictions].

(** The values that a confidence can take. *)
Definition confidenceValues : list Z :=
  [0; 5; 10; 15; 20; 25; 30; 35; 40; 45; 50; 55; 60; 75].

(** The numeric fields of a token [YYYY-MM-DD]. *)
Definition yearOf (tok : Js.str) : Z := Js.digitsVal 0 (Js.substring 0 4 tok).
Definition monthOf (tok : Js.str) : Z := Js.digitsVal 0 (Js.substring 5 2 tok).
Definition dayOf (tok : Js.str) : Z := Js.digitsVal 0 (Js.substring 8 2 tok).

(** 2099-12-31T00:00:00Z. *)
Definition lastDay2099 : Z := 4102358400000.

(** A string of white space only. *)
Definition allSpace (s : Js.str) : bool := forallb Js.isWhiteSpace s.

Fixpoint lastChar (s : Js.str) : option Js.codeunit :=
  match s with
  | [] => None
  | [c] => Some c
  | _ :: s' => lastChar s'
  end.

(** A string that neither starts nor ends with white space. *)
Definition solidEnds (sub : Js.str) : bool :=
  match sub, lastChar sub with
  | h :: _, Some l => (negb (Js.isWhiteSpace h) && negb (Js.isWhiteSpace l))%bool
  | _, _ => false
  end.

(** A regular expression none of whose items accepts [c]. *)
Definition rejects (r : Js.regex) (c : Js.codeunit) : Prop :=
  r <> [] /\ forall i, In i r -> Js.item_matches i c = false.

(** A code unit that no test of the engine tells from another of its kind:
    it is not ASCII and it is not white space. *)
Definition opaqueUnit (c : Js.codeunit) : Prop :=
  (128 <= c)%N /\ Js.isWhiteSpace c = false.

(** Two texts of the same length that are the same, position by position,
    but for such units. *)
Definition sameView (s t : Js.str) : Prop :=
  Forall2 (fun x y => x = y \/ (opaqueUnit x /\ opaqueUnit y)) s t.

(** A text of ASCII units, and a regular expression of ASCII items. *)
Definition asciiText (s : Js.str) : bool := forallb (fun a => N.ltb a 128) s.

Definition asciiItem (i : Js.item) : bool :=
  match i with
  | Js.Digit => true
  | Js.Lit a => N.ltb a 128
  end.

(** ** The component [App]

    The state of the component is the record of its seven [useState] cells;
    a setter writes its cell.  What the component does not compute itself
    comes in from outside: the reply to [fetch], the clock at each of its
    three readings, the body that [resp.json()] resolves to and
    [Date.prototype.toISOString].  A body that is not [null] is of a type
    [Json] left open, of which the component reads the truth value only
    (the test [!result] of its render). *)

Module App.

(** The part of a [File] that the component reads. *)
Record File : Type := mkFile {
  name : Js.str;
  size : Z
}.

Section WithBuiltins.

Context {Json : Type}.
Variable bodyTruthy : Json -> bool.
Variable toISOString : Z -> Js.str.

(** A value of [resData] or of the [result] cell that is not [null]: the
    body of a successful response, taken as it is, or the result of
    [mockAnalyze].  With [option], [None] is [null]. *)
Inductive ResData : Type :=
| Remote (body : Json)
| Local (r : AnalysisResult).

Record HistoryEntry : Type := mkEntry {
  id : Z;
  query : AnalysisRequest;
  timestamp : Js.str;
  res : option ResData
}.

Record State : Type := mkState {
  tab : ContentKind;
  input : Js.str;
  url : Js.str;
  file : option File;
  loading : bool;
  result : option ResData;
  history : list HistoryEntry
}.

(** The state at the first render. *)
Definition initial : State := mkState KText [] [] None false None [].

(** The test of the render on the [result] cell, [!result] and
    [result && ...]: whether the pane of the result is drawn. *)
Definition shown (st : State) : bool :=
  match result st with
  | None => false
  | Some (Remote body) => bodyTruthy body
  | Some (Local _) => true
  end.

(** [payload], from the tab and the cell of that tab. *)
Definition payloadOf (st : State) : AnalysisRequest :=
  match tab st with
  | KText => mkRequest KText (Js.Str (input st))
  | KUrl => mkRequest KUrl (Js.Str (url st))
  | KImage =>
      mkRequest KImage
        (Js.Str (match file st with Some f => name f | None => [] end))
  end.

(** What [resp.json()] gives: a rejection, [null], or another body. *)
Inductive Parsed : Type :=
| ParseError
| ParsedNull
| ParsedBody (body : Json).

(** What came of [fetch]: a response, with its [ok] flag and with what
    [resp.json()] gives, or a rejection. *)
Inductive Reply : Type :=
| Responded (ok : bool) (body : Parsed)
| Rejected.

Record Env : Type := mkEnv {
  reply : Reply;
  analysisClock : Z;
  idClock : Z;
  stampClock : Z
}.

(** The body that the server serves: [Some] when the response is [ok] and
    its body parses, with [None] inside for the body [null]. *)
Definition served (env : Env) : option (option Json) :=
  match reply env with
  | Responded true ParsedNull => Some None
  | Responded true (ParsedBody body) => Some (Some body)
  | _ => None
  end.

(** The inner [try]/[catch]: the value of [resData], or [None] outside
    when the [catch] block itself throws. *)
Definition resolve (env : Env) (payload : AnalysisRequest)
  : option (option ResData) :=
  let caught :=
    option_map (fun r => Some (Local r))
      (mockAnalyze (analysisClock env) payload) in
  match reply env with
  | Responded true ParsedNull => Some None
  | Responded true (ParsedBody body) => Some (Some (Remote body))
  | Responded true ParseError => caught
  | Responded false _ =>
      match mockAnalyze (analysisClock env) payload with
      | Some r => Some (Some (Local r))
      | None => caught
      end
  | Rejected => caught
  end.

(** [analyze] up to its first [await]: [setLoading(true); setResult(null)]. *)
Definition analyzeBegin (st : State) : State :=
  mkState (tab st) (input st) (url st) (file st) true None (history st).

(** [analyze] from the reply on, for the [payload] it built at the click:
    [setResult], [setHistory] with the new entry in front and ten entries
    kept, and [setLoading(false)] in the [finally] block, which is all that
    runs when the body throws. *)
Definition analyzeEnd (payload : AnalysisRequest) (env : Env) (st : State) : State :=
  match resolve env payload with
  | Some resData =>
      mkState (tab st) (input st) (url st) (file st) false resData
        (firstn 10
           (mkEntry (idClock env) payload (toISOString (stampClock env)) resData
            :: history st))
  | None =>
      mkState (tab st) (input st) (url st) (file st) false (result st) (history st)
  end.

(** A whole call of [analyze] with nothing else happening meanwhile. *)
Definition analyze (env : Env) (st : State) : State :=
  analyzeEnd (payloadOf st) env (analyzeBegin st).

(** [onFileChange]: [setFile(f || null)] for [f = e.target.files[0]]. *)
Definition onFileChange (f : option File) (st : State) : State :=
  mkState (tab st) (input st) (url st) f (loading st) (result st) (history st).

(** The handler of the Clear button. *)
Definition clear (st : State) : State :=
  mkState (tab st) [] [] None (loading st) (result st) (history st).

(** A session: the state, and the payload of the call of [analyze] that is
    waiting for its reply, if there is one. *)
Record Session : Type := mkSession {
  app : State;
  inflight : option AnalysisRequest
}.

Inductive Event : Type :=
| SetTab (k : ContentKind)
| SetInput (s : Js.str)
| SetUrl (s : Js.str)
| FileChange (f : option File)
| ClickClear
| ClickAnalyze
| Settle (env : Env).

(** One event.  The Analyze button is disabled while [loading] is set, and
    a reply settles the call that is waiting, if any. *)
Definition step (s : Session) (ev : Event) : Session :=
  let st := app s in
  match ev with
  | SetTab k =>
      mkSession (mkState k (input st) (url st) (file st) (loading st)
                   (result st) (history st)) (inflight s)
  | SetInput x =>
      mkSession (mkState (tab st) x (url st) (file st) (loading st)
                   (result st) (history st)) (inflight s)
  | SetUrl x =>
      mkSession (mkState (tab st) (input st) x (file st) (loading st)
                   (result st) (history st)) (inflight s)
  | FileChange f => mkSession (onFileChange f st) (inflight s)
  | ClickClear => mkSession (clear st) (inflight s)
  | ClickAnalyze =>
      if loading st then s
      else mkSession (analyzeBegin st) (Some (payloadOf st))
  | Settle env =>
      match inflight s with
      | Some payload => mkSession (analyzeEnd payload env st) None
      | None => s
      end
  end.

Definition run (evs : list Event) (s : Session) : Session :=
  fold_left step evs s.

(** Calls of [analyze] one after the other, each with its own replies. *)
Definition analyzeAll (envs : list Env) (st : State) : State :=
  fold_left (fun st env => analyze env st) envs st.

(** What holds of a session at every moment, as shown below: the history
    has at most ten entries; [loading] is set exactly while a call waits
    for its reply, and the [result] cell is empty meanwhile; a result in
    that cell is that of the newest entry; every query, stored or waiting,
    has a string as its content; and a stored result that did not come
    from the server is what [mockAnalyze] returns on the stored query. *)
Definition invariant (s : Session) : Prop :=
  (List.length (history (app s)) <= 10)%nat /\
  (loading (app s) = true <-> inflight s <> None) /\
  (loading (app s) = true -> result (app s) = None) /\
  (forall d, result (app s) = Some d ->
     exists h rest, history (app s) = h :: rest /\ res h = Some d) /\
  (forall h, In h (history (app s)) ->
     (exists x, content (query h) = Js.Str x) /\
     (forall r, res h = Some (Local r) ->
        wellFormed r /\ exists now, mockAnalyze now (query h) = Some r)) /\
  (forall p, inflight s = Some p -> exists x, content p = Js.Str x).

(** The line of a history entry that shows its content:
    [(h.query.content || "(file)").toString().slice(0, 60)]. *)
Definition historyLabel (h : HistoryEntry) : option Js.str :=
  option_map (firstn 60)
    (Js.toString (Js.or (content (query h)) (Js.Str (Js.lit "(file)")))).

End WithBuiltins.

Arguments ResData : clear implicits.
Arguments HistoryEntry : clear implicits.
Arguments State : clear implicits.
Arguments Parsed : clear implicits.
Arguments Reply : clear implicits.
Arguments Env : clear implicits.
Arguments Session : clear implicits.
Arguments Event : clear implicits.

(** The text of a badge: [s.replace(/-/g, ' ')]. *)
Definition replaceHyphens (s : Js.str) : Js.str :=
  map (fun c => if N.eqb c Js.hyphen then Js.unitOf " " else c) s.

Definition badge (s : Signal) : Js.str := replaceHyphens (tag s).

(** The badges of a result: the one that says there is no flag, when the
    array is empty, and one for each entry of the array. *)
Definition badges (sigs : list Signal) : list Js.str :=
  (if Nat.eqb (List.length sigs) 0 then [Js.lit "No flags"] else [])
  ++ map badge sigs.

End App.

(** Case analysis on the tests of the pushes. *)
Ltac split_pushes :=
  unfold collectSignals, pushIf;
  repeat match goal with
         | |- context [if ?b then _ else _] => destruct b
         end.

Ltac split_has signals :=
  destruct (has signals TooShort), (has signals Clickbait),
    (has signals NoSources), (has signals FabricatedDates),
    (has signals AuthoritativeSources), (has signals ImageManipulated),
    (has signals ManyContradictions).

(** ** Basic facts *)

Example Date_parse_2020 : Js.Date_parse (Js.lit "2020-01-01") = Some 1577836800000.
Proof. reflexivity. Qed.

Example Date_parse_leap : Js.Date_parse (Js.lit "2024-03-01") = Some 1709251200000.
Proof. reflexivity. Qed.

Example Date_parse_bad_month : Js.Date_parse (Js.lit "2099-13-01") = None.
Proof. reflexivity. Qed.

Example trim_example : Js.trim (Js.lit "  a b  ") = Js.lit "a b".
Proof. reflexivity. Qed.

Example toLowerCase_example :
  Js.toLowerCase (Js.lit "The CDC said: WHO?") = Js.lit "the cdc said: who?".
Proof. reflexivity. Qed.

Example toLowerCase_dotted :
  Js.toLowerCase [dottedI; dottedI] = [105; 775; 105; 775]%N.
Proof. reflexivity. Qed.

Example toString_num :
  Js.toString (Js.Num elevenDigits) = Some (Js.lit "12345678901").
Proof. reflexivity. Qed.

Example analyze_empty :
  mockAnalyze clock2026 (text []) =
  Some (mkResult NeedsReview 50 [TooShort] [sentence TooShort] recommendedActionsList).
Proof. reflexivity. Qed.

Example analyze_cdc :
  option_map (fun r => (verdict r, confidence r, signals r))
    (mockAnalyze clock2026
       (text (Js.lit "According to our sources, the CDC confirmed it.")))
  = Some (LikelyReal, 60, [NoSources; AuthoritativeSources]).
Proof. reflexivity. Qed.

Example analyze_date_2099 :
  option_map signals
    (mockAnalyze clock2026 (text (Js.lit "The launch happened on 2099-01-01.")))
  = Some [FabricatedDates].
Proof. reflexivity. Qed.

Example analyze_date_2020 :
  option_map signals
    (mockAnalyze clock2026 (text (Js.lit "The launch happened on 2020-01-01.")))
  = Some [].
Proof. reflexivity. Qed.

Example analyze_number :
  option_map signals (mockAnalyze clock2026 (mkRequest KText (Js.Num elevenDigits)))
  = Some [].
Proof. reflexivity. Qed.

Lemma Signal_eqb_eq (a b : Signal) : Signal_eqb a b = true <-> a = b.
Proof. destruct a, b; simpl; split; intro H; congruence. Qed.

Lemma Signal_eqb_refl (a : Signal) : Signal_eqb a a = true.
Proof. now destruct a. Qed.

(** Comparing two tags is comparing their strings, as [includes] does on the
    array of the source. *)
Lemma Signal_eqb_tag (a b : Signal) :
  Signal_eqb a b = (if list_eq_dec N.eq_dec (tag a) (tag b) then true else false).
Proof. destruct a, b; reflexivity. Qed.

Lemma has_In (l : list Signal) (s : Signal) : has l s = true <-> In s l.
Proof.
  unfold has. rewrite existsb_exists. split.
  - intros [x [Hin Heq]]. apply Signal_eqb_eq in Heq. now subst.
  - intro Hin. exists s. split; [assumption | apply Signal_eqb_refl].
Qed.

Lemma has_app (l l' : list Signal) (s : Signal) :
  has (l ++ l') s = (has l s || has l' s)%bool.
Proof. unfold has. apply existsb_app. Qed.

Lemma has_same (l l' : list Signal) (s : Signal) :
  sameSignals l l' -> has l s = has l' s.
Proof.
  intro H. destruct (has l s) eqn:E; destruct (has l' s) eqn:E'; trivial.
  - apply has_In, H, has_In in E. congruence.
  - apply has_In, H, has_In in E'. congruence.
Qed.

Lemma has_cons_other (l : list Signal) (s x : Signal) :
  x <> s -> has (s :: l) x = has l x.
Proof.
  intro Hne. unfold has. simpl.
  destruct (Signal_eqb x s) eqn:E; [|reflexivity].
  apply Signal_eqb_eq in E. contradiction.
Qed.

Lemma has_without_other (l : list Signal) (s x : Signal) :
  x <> s -> has (without s l) x = has l x.
Proof.
  intro Hne. induction l as [|y l IH]; [reflexivity|].
  unfold without in *. simpl.
  destruct (Signal_eqb y s) eqn:E; simpl.
  - apply Signal_eqb_eq in E. subst y.
    rewrite IH. symmetry. now apply has_cons_other.
  - unfold has in *. simpl. now rewrite IH.
Qed.

Lemma has_without_same (l : list Signal) (s : Signal) :
  has (without s l) s = false.
Proof.
  destruct (has (without s l) s) eqn:E; [|reflexivity].
  apply has_In in E. unfold without in E. apply filter_In in E.
  destruct E as [_ E]. now rewrite Signal_eqb_refl in E.
Qed.

(** The confidence depends on the array only through the five membership
    tests. *)
Lemma fakeConfidence_ext (l l' : list Signal) :
  (forall s, In s weighted -> has l s = has l' s) ->
  fakeConfidenceFromSignals l = fakeConfidenceFromSignals l'.
Proof.
  intro H. unfold fakeConfidenceFromSignals.
  rewrite (H ManyContradictions), (H AuthoritativeSources),
    (H FabricatedDates), (H NoSources), (H ImageManipulated);
    simpl; auto 10.
Qed.

Lemma fakeConfidence_table (signals : list Signal) :
  fakeConfidenceFromSignals signals = clamp (50 + deltaSum weighted signals) 0 100.
Proof.
  unfold fakeConfidenceFromSignals, deltaSum, weighted, presentDelta. simpl.
  destruct (has signals ManyContradictions), (has signals AuthoritativeSources),
    (has signals FabricatedDates), (has signals NoSources),
    (has signals ImageManipulated); reflexivity.
Qed.

Lemma deltaSum_perm (order order' signals : list Signal) :
  Permutation order order' ->
  deltaSum order signals = deltaSum order' signals.
Proof.
  unfold deltaSum. induction 1; simpl; lia.
Qed.

Lemma clamp_range (n : Z) : 0 <= clamp n 0 100 <= 100.
Proof. unfold clamp. lia. Qed.

Lemma weighted_not_soft (s x : Signal) :
  s = Clickbait \/ s = TooShort -> In x weighted -> x <> s.
Proof.
  intros [-> | ->] Hin; simpl in Hin; intuition (subst; discriminate).
Qed.

(** *** Strings *)

Lemma startsWith_occurs (sub s : Js.str) :
  Js.startsWith sub s = true <-> exists b, s = sub ++ b.
Proof.
  revert s. induction sub as [|c sub IH]; intros s; simpl.
  - split; eauto.
  - destruct s as [|d s].
    + split; [discriminate | intros [b H]; discriminate].
    + rewrite andb_true_iff, N.eqb_eq, IH. split.
      * intros [-> [b ->]]. now exists b.
      * intros [b H]. injection H as -> ->. eauto.
Qed.

Lemma includes_occurs (s sub : Js.str) :
  Js.includes s sub = true <-> occursIn sub s.
Proof.
  unfold occursIn. induction s as [|c s IH].
  - cbn [Js.includes]. rewrite orb_false_r, startsWith_occurs. split.
    + intros [b H]. exists [], b. exact H.
    + intros [a [b H]]. destruct a; [eauto | discriminate].
  - cbn [Js.includes]. rewrite orb_true_iff, startsWith_occurs, IH. split.
    + intros [[b H] | [a [b H]]].
      * exists [], b. exact H.
      * exists (c :: a), b. simpl. now rewrite H.
    + intros [a [b H]]. destruct a as [|d a].
      * left. exists b. exact H.
      * right. exists a, b. simpl in H. congruence.
Qed.

Lemma between_iff (lo hi n : N) :
  Js.between lo hi n = true <-> (lo <= n <= hi)%N.
Proof. unfold Js.between. now rewrite andb_true_iff, !N.leb_le. Qed.

Lemma isWhiteSpace_iff (c : Js.codeunit) :
  Js.isWhiteSpace c = true <->
  ((9 <= c <= 13) \/ c = 32 \/ c = 160 \/ c = 5760 \/ (8192 <= c <= 8202)
   \/ c = 8232 \/ c = 8233 \/ c = 8239 \/ c = 8287 \/ c = 12288 \/ c = 65279)%N.
Proof.
  unfold Js.isWhiteSpace.
  rewrite !orb_true_iff, !between_iff, !N.eqb_eq. tauto.
Qed.

Lemma isWhiteSpace_false_iff (c : Js.codeunit) :
  Js.isWhiteSpace c = false <->
  ~ ((9 <= c <= 13) \/ c = 32 \/ c = 160 \/ c = 5760 \/ (8192 <= c <= 8202)
     \/ c = 8232 \/ c = 8233 \/ c = 8239 \/ c = 8287 \/ c = 12288 \/ c = 65279)%N.
Proof.
  rewrite <- isWhiteSpace_iff. now destruct (Js.isWhiteSpace c).
Qed.

(** The four cases of the lower case of a code unit. *)
Lemma toLowerUnits_cases (c : Js.codeunit) :
  (((65 <= c <= 90) \/ (192 <= c <= 222 /\ c <> 215))%N
   /\ Js.toLowerUnits c = [(c + 32)%N]) \/
  (c = 304%N /\ Js.toLowerUnits c = [105; 775]%N) \/
  (c = 8490%N /\ Js.toLowerUnits c = [107]%N) \/
  (~ ((65 <= c <= 90) \/ (192 <= c <= 222 /\ c <> 215))%N
   /\ c <> 304%N /\ c <> 8490%N /\ Js.toLowerUnits c = [c]).
Proof.
  unfold Js.toLowerUnits.
  destruct (Js.between 65 90 c || Js.between 192 222 c && negb (c =? 215)%N)%bool
    eqn:E.
  - left. split; [|reflexivity].
    rewrite orb_true_iff, andb_true_iff, !between_iff, negb_true_iff, N.eqb_neq in E.
    exact E.
  - right.
    assert (Hn : ~ ((65 <= c <= 90) \/ (192 <= c <= 222 /\ c <> 215))%N).
    { intro H.
      rewrite <- N.eqb_neq, <- negb_true_iff, <- !between_iff,
        <- andb_true_iff, <- orb_true_iff in H. congruence. }
    destruct (N.eqb_spec c 304) as [->|H1]; [left; now split|].
    right. destruct (N.eqb_spec c 8490) as [->|H2]; [left; now split|].
    right. repeat split; assumption.
Qed.

Lemma toLowerUnits_space (c : Js.codeunit) :
  Js.isWhiteSpace c = true -> Js.toLowerUnits c = [c].
Proof.
  intro H. apply isWhiteSpace_iff in H.
  destruct (toLowerUnits_cases c) as [[Hc _]|[[Hc _]|[[Hc _]|[_ [_ [_ E]]]]]];
    [lia | lia | lia | exact E].
Qed.

Lemma toLowerUnits_solid (c d : Js.codeunit) :
  Js.isWhiteSpace c = false -> In d (Js.toLowerUnits c) ->
  Js.isWhiteSpace d = false.
Proof.
  intros H Hin. apply isWhiteSpace_false_iff in H. apply isWhiteSpace_false_iff.
  destruct (toLowerUnits_cases c) as [[Hc E]|[[Hc E]|[[Hc E]|[_ [_ [_ E]]]]]];
    rewrite E in Hin; simpl in Hin.
  - destruct Hin as [<-|[]]. lia.
  - destruct Hin as [<-|[<-|[]]]; lia.
  - destruct Hin as [<-|[]]. lia.
  - destruct Hin as [<-|[]]. exact H.
Qed.

Lemma toLowerUnits_nonempty (c : Js.codeunit) : Js.toLowerUnits c <> [].
Proof.
  destruct (toLowerUnits_cases c) as [[_ E]|[[_ E]|[[_ E]|[_ [_ [_ E]]]]]];
    rewrite E; discriminate.
Qed.

Lemma toLowerUnits_idem (c : Js.codeunit) :
  Js.toLowerCase (Js.toLowerUnits c) = Js.toLowerUnits c.
Proof.
  assert (Hfix : forall d, (~ ((65 <= d <= 90) \/ (192 <= d <= 222 /\ d <> 215))
                            /\ d <> 304 /\ d <> 8490)%N ->
                           Js.toLowerUnits d = [d]).
  { intros d Hd.
    destruct (toLowerUnits_cases d) as [[Hc _]|[[Hc _]|[[Hc _]|[_ [_ [_ E]]]]]];
      [tauto | tauto | tauto | exact E]. }
  unfold Js.toLowerCase.
  destruct (toLowerUnits_cases c) as [[Hc E]|[[Hc E]|[[Hc E]|[H1 [H2 [H3 E]]]]]];
    rewrite E; cbn [flat_map app].
  - rewrite Hfix; [reflexivity | lia].
  - reflexivity.
  - reflexivity.
  - rewrite Hfix; [reflexivity | tauto].
Qed.

Lemma toLowerCase_app (a b : Js.str) :
  Js.toLowerCase (a ++ b) = Js.toLowerCase a ++ Js.toLowerCase b.
Proof. apply flat_map_app. Qed.

Lemma toLowerCase_idem (s : Js.str) :
  Js.toLowerCase (Js.toLowerCase s) = Js.toLowerCase s.
Proof.
  induction s as [|c s IH]; [reflexivity|].
  change (Js.toLowerCase (c :: s)) with (Js.toLowerUnits c ++ Js.toLowerCase s).
  now rewrite toLowerCase_app, toLowerUnits_idem, IH.
Qed.

Lemma toLowerCase_empty (s : Js.str) : Js.toLowerCase s = [] <-> s = [].
Proof.
  destruct s as [|c s]; [tauto|]. split; [|discriminate].
  change (Js.toLowerCase (c :: s)) with (Js.toLowerUnits c ++ Js.toLowerCase s).
  intro H. apply app_eq_nil in H. destruct H as [H _].
  now apply toLowerUnits_nonempty in H.
Qed.

(** Lower-casing makes a text longer by one unit for each U+0130. *)
Lemma toLowerCase_length (s : Js.str) :
  List.length (Js.toLowerCase s) = (List.length s + dottedCount s)%nat.
Proof.
  induction s as [|c s IH]; [reflexivity|].
  change (Js.toLowerCase (c :: s)) with (Js.toLowerUnits c ++ Js.toLowerCase s).
  rewrite length_app, IH. unfold dottedCount, dottedI. cbn [count_occ List.length].
  destruct (toLowerUnits_cases c) as [[Hc E]|[[Hc E]|[[Hc E]|[H1 [H2 [H3 E]]]]]];
    rewrite E; cbn [List.length];
    destruct (N.eq_dec c 304) as [Hd|Hd]; try lia.
Qed.

Lemma trimStart_lower (s : Js.str) :
  Js.trimStart (Js.toLowerCase s) = Js.toLowerCase (Js.trimStart s).
Proof.
  induction s as [|c s IH]; [reflexivity|].
  change (Js.toLowerCase (c :: s)) with (Js.toLowerUnits c ++ Js.toLowerCase s).
  cbn [Js.trimStart]. destruct (Js.isWhiteSpace c) eqn:Ec.
  - rewrite (toLowerUnits_space c Ec). cbn [app Js.trimStart]. now rewrite Ec.
  - change (Js.toLowerCase (c :: s)) with (Js.toLowerUnits c ++ Js.toLowerCase s).
    pose proof (toLowerUnits_solid c) as Hs. specialize (fun d => Hs d Ec).
    destruct (Js.toLowerUnits c) as [|d l] eqn:E;
      [now apply toLowerUnits_nonempty in E|].
    cbn [app Js.trimStart]. now rewrite (Hs d (or_introl eq_refl)).
Qed.

Lemma trimEnd_nil_iff (s : Js.str) :
  Js.trimEnd s = [] <-> forallb Js.isWhiteSpace s = true.
Proof.
  induction s as [|c s IH]; [simpl; tauto|].
  cbn [Js.trimEnd forallb]. rewrite andb_true_iff, <- IH.
  destruct (Js.trimEnd s); destruct (Js.isWhiteSpace c);
    split; intro H; try discriminate; try tauto; destruct H; discriminate.
Qed.

Lemma trimEnd_cons (c : Js.codeunit) (s : Js.str) :
  Js.trimEnd (c :: s) =
  if (Js.isWhiteSpace c && forallb Js.isWhiteSpace s)%bool then []
  else c :: Js.trimEnd s.
Proof.
  cbn [Js.trimEnd]. destruct (Js.trimEnd s) as [|d r] eqn:E.
  - apply trimEnd_nil_iff in E. rewrite E, andb_true_r.
    now destruct (Js.isWhiteSpace c).
  - assert (Hn : forallb Js.isWhiteSpace s = false).
    { destruct (forallb Js.isWhiteSpace s) eqn:F; [|reflexivity].
      apply trimEnd_nil_iff in F. congruence. }
    now rewrite Hn, andb_false_r.
Qed.

Lemma trimEnd_app_solid (a b : Js.str) :
  forallb Js.isWhiteSpace b = false -> Js.trimEnd (a ++ b) = a ++ Js.trimEnd b.
Proof.
  intro Hb. induction a as [|c a IH]; [reflexivity|].
  cbn [app]. rewrite trimEnd_cons, IH.
  rewrite forallb_app, Hb, andb_false_r, andb_false_r. reflexivity.
Qed.

Lemma lower_allSpace (s : Js.str) :
  forallb Js.isWhiteSpace (Js.toLowerCase s) = forallb Js.isWhiteSpace s.
Proof.
  induction s as [|c s IH]; [reflexivity|].
  change (Js.toLowerCase (c :: s)) with (Js.toLowerUnits c ++ Js.toLowerCase s).
  rewrite forallb_app, IH. cbn [forallb]. f_equal.
  destruct (Js.isWhiteSpace c) eqn:Ec.
  - rewrite (toLowerUnits_space c Ec). simpl. now rewrite Ec.
  - pose proof (toLowerUnits_solid c) as Hs. specialize (fun d => Hs d Ec).
    destruct (Js.toLowerUnits c) as [|d l] eqn:E;
      [now apply toLowerUnits_nonempty in E|].
    simpl. now rewrite (Hs d (or_introl eq_refl)).
Qed.

Lemma trimEnd_lower (s : Js.str) :
  Js.trimEnd (Js.toLowerCase s) = Js.toLowerCase (Js.trimEnd s).
Proof.
  induction s as [|c s IH]; [reflexivity|].
  rewrite trimEnd_cons.
  change (Js.toLowerCase (c :: s)) with (Js.toLowerUnits c ++ Js.toLowerCase s).
  destruct (forallb Js.isWhiteSpace s) eqn:Hs.
  - rewrite andb_true_r.
    assert (Hl : Js.trimEnd (Js.toLowerCase s) = []).
    { apply trimEnd_nil_iff. now rewrite lower_allSpace. }
    assert (Ht : Js.trimEnd s = []) by now apply trimEnd_nil_iff.
    destruct (Js.isWhiteSpace c) eqn:Ec.
    + rewrite (toLowerUnits_space c Ec). cbn [app].
      rewrite trimEnd_cons, Ec, lower_allSpace, Hs. reflexivity.
    + rewrite Ht. cbn [Js.toLowerCase flat_map]. rewrite app_nil_r.
      assert (Hall : forall l, (forall d, In d l -> Js.isWhiteSpace d = false) ->
                               forall t, Js.trimEnd t = [] ->
                               Js.trimEnd (l ++ t) = l).
      { induction l as [|d l IHl]; intros Hd t Ht'; [exact Ht'|].
        cbn [app]. rewrite trimEnd_cons, (Hd d (or_introl eq_refl)).
        cbn [andb]. f_equal. apply IHl; [|exact Ht'].
        intros e He. apply Hd. now right. }
      apply Hall; [|exact Hl]. intros d Hd.
      now apply (toLowerUnits_solid c).
  - rewrite andb_false_r.
    change (Js.toLowerCase (c :: Js.trimEnd s))
      with (Js.toLowerUnits c ++ Js.toLowerCase (Js.trimEnd s)).
    rewrite <- IH. apply trimEnd_app_solid. now rewrite lower_allSpace.
Qed.

Lemma trim_lower (s : Js.str) :
  Js.trim (Js.toLowerCase s) = Js.toLowerCase (Js.trim s).
Proof. unfold Js.trim. now rewrite trimStart_lower, trimEnd_lower. Qed.

(** The trimmed length that line 42 tests is that of the content, with one
    more for each U+0130 of the trimmed content. *)
Lemma trim_lower_length (s : Js.str) :
  List.length (Js.trim (Js.toLowerCase s)) =
  (List.length (Js.trim s) + dottedCount (Js.trim s))%nat.
Proof. now rewrite trim_lower, toLowerCase_length. Qed.

(** *** The body of [mockAnalyze] *)

Lemma readable_Str (s : Js.str) : Js.readable (Js.Str s).
Proof. intros _. discriminate. Qed.

Lemma readable_kinds (v : Js.value) :
  (forall t, v <> Js.Other t None) -> Js.readable v.
Proof.
  intros H Ht. destruct v as [| |[]|n|s|t [x|]]; simpl in *;
    try discriminate. now destruct (H t).
Qed.

Lemma lowered_falsy (c : Js.value) :
  Js.truthy c = false -> lowered c = Some [].
Proof. unfold lowered, Js.or. now intros ->. Qed.

Lemma lowered_Str (s : Js.str) : lowered (Js.Str s) = Some (Js.toLowerCase s).
Proof. unfold lowered, Js.or. now destruct s. Qed.

Lemma lowered_truthy (c : Js.value) :
  Js.truthy c = true -> lowered c = option_map Js.toLowerCase (Js.toString c).
Proof. unfold lowered, Js.or. now intros ->. Qed.

Lemma lowered_total (c : Js.value) :
  Js.readable c -> exists lower, lowered c = Some lower.
Proof.
  intro Hr. destruct (Js.truthy c) eqn:E.
  - rewrite (lowered_truthy c E). specialize (Hr E).
    destruct (Js.toString c); [cbn; eauto | now contradiction Hr].
  - exists []. now apply lowered_falsy.
Qed.

Lemma lowered_None (c : Js.value) :
  lowered c = None <-> ~ Js.readable c.
Proof.
  split.
  - intros H Hr. destruct (lowered_total c Hr) as [l Hl]. congruence.
  - intro Hn. destruct (lowered c) eqn:E; [|reflexivity].
    exfalso. apply Hn. intros Ht Hs.
    rewrite (lowered_truthy c Ht), Hs in E. discriminate E.
Qed.

Lemma mockAnalyze_lowered (now : Z) (req : AnalysisRequest) (lower : Js.str) :
  lowered (content req) = Some lower ->
  mockAnalyze now req =
  Some (mkResult (verdictOf (fakeConfidenceFromSignals
                               (collectSignals now (content req) lower)))
                 (fakeConfidenceFromSignals (collectSignals now (content req) lower))
                 (collectSignals now (content req) lower)
                 (explain (collectSignals now (content req) lower))
                 recommendedActionsList).
Proof. unfold mockAnalyze. now intros ->. Qed.

Lemma mockAnalyze_total (now : Z) (req : AnalysisRequest) :
  Js.readable (content req) -> exists r, mockAnalyze now req = Some r.
Proof.
  intro Hr. destruct (lowered_total (content req) Hr) as [lower H].
  rewrite (mockAnalyze_lowered now req lower H). eauto.
Qed.

Lemma mockAnalyze_returns (now : Z) (req : AnalysisRequest) (r : AnalysisResult) :
  mockAnalyze now req = Some r ->
  exists lower,
    lowered (content req) = Some lower /\
    r = mkResult (verdictOf (fakeConfidenceFromSignals
                               (collectSignals now (content req) lower)))
                 (fakeConfidenceFromSignals (collectSignals now (content req) lower))
                 (collectSignals now (content req) lower)
                 (explain (collectSignals now (content req) lower))
                 recommendedActionsList.
Proof.
  unfold mockAnalyze. destruct (lowered (content req)) as [lower|];
    [|discriminate].
  intros [= <-]. eauto.
Qed.

Lemma extractSignals_lowered (now : Z) (c : Js.value) (lower : Js.str) :
  lowered c = Some lower ->
  extractSignals now c = Some (collectSignals now c lower).
Proof.
  intro H. unfold extractSignals.
  now rewrite (mockAnalyze_lowered now (mkRequest KText c) lower H).
Qed.

(** Each tag is in the array exactly when its own test holds. *)
Lemma collect_TooShort now c lower :
  has (collectSignals now c lower) TooShort =
  (negb (Js.truthy c) || Nat.ltb (List.length (Js.trim lower)) 10)%bool.
Proof. split_pushes; reflexivity. Qed.

Lemma collect_Clickbait now c lower :
  has (collectSignals now c lower) Clickbait =
  (Js.includes lower (Js.lit "shocking")
   || Js.includes lower (Js.lit "you won't believe"))%bool.
Proof. split_pushes; reflexivity. Qed.

Lemma collect_NoSources now c lower :
  has (collectSignals now c lower) NoSources =
  (Js.includes lower (Js.lit "according to our sources")
   && negb (Js.includes lower (Js.lit "https")))%bool.
Proof. split_pushes; reflexivity. Qed.

Lemma collect_FabricatedDates now c lower :
  has (collectSignals now c lower) FabricatedDates = futureDateFound now lower.
Proof. split_pushes; reflexivity. Qed.

Lemma collect_ImageManipulated now c lower :
  has (collectSignals now c lower) ImageManipulated =
  (Js.includes lower (Js.lit "deepfake")
   || Js.includes lower (Js.lit "ai-generated"))%bool.
Proof. split_pushes; reflexivity. Qed.

Lemma collect_AuthoritativeSources now c lower :
  has (collectSignals now c lower) AuthoritativeSources =
  (Js.includes lower (Js.lit "cdc") || Js.includes lower (Js.lit "who")
   || Js.includes lower (Js.lit "nyt"))%bool.
Proof. split_pushes; reflexivity. Qed.

Lemma collect_ManyContradictions now c lower :
  has (collectSignals now c lower) ManyContradictions =
  (Js.includes lower (Js.lit "contradictory")
   || Js.includes lower (Js.lit "but then"))%bool.
Proof. split_pushes; reflexivity. Qed.

Lemma explain_nonempty (signals : list Signal) : explain signals <> [].
Proof. unfold explain, pushIf. split_has signals; discriminate. Qed.

Lemma explain_along (signals : list Signal) :
  explain signals = explainAlong explainOrder signals.
Proof.
  unfold explainAlong, explainOrder, explain, pushIf. simpl filter.
  split_has signals; reflexivity.
Qed.

Lemma mockAnalyze_wellFormed (now : Z) (req : AnalysisRequest) (r : AnalysisResult) :
  mockAnalyze now req = Some r -> wellFormed r.
Proof.
  intro E. destruct (mockAnalyze_returns now req r E) as [lower [_ ->]].
  unfold wellFormed. cbn [confidence verdict explanation recommendedActions].
  split; [apply clamp_range|].
  split; [reflexivity|].
  split; [apply explain_nonempty | reflexivity].
Qed.

Lemma likelyReal_tests (signals : list Signal) :
  verdictOf (fakeConfidenceFromSignals signals) = LikelyReal <->
  has signals AuthoritativeSources = true /\
  has signals ManyContradictions = false /\
  has signals FabricatedDates = false /\
  has signals ImageManipulated = false.
Proof.
  unfold fakeConfidenceFromSignals.
  destruct (has signals ManyContradictions), (has signals AuthoritativeSources),
    (has signals FabricatedDates), (has signals NoSources),
    (has signals ImageManipulated); cbv; intuition congruence.
Qed.

Lemma has_false_not_In (l : list Signal) (s : Signal) :
  has l s = false <-> ~ In s l.
Proof.
  rewrite <- has_In. destruct (has l s); split; congruence.
Qed.

(** The sum of the five deltas, with the clamp written out. *)
Lemma fakeConfidence_max_min (signals : list Signal) :
  fakeConfidenceFromSignals signals =
  Z.max 0 (Z.min 100 (50 + deltaSum weighted signals)).
Proof. rewrite fakeConfidence_table. reflexivity. Qed.

(** ** The scorer *)

(** C1.  The confidence is 50 plus the sum of the deltas of the weighted
    tags present (ManyContradictions -30, AuthoritativeSources +25,
    FabricatedDates -20, NoSources -15, ImageManipulated -25), clamped to
    [0,100]: the sum itself when it lies between 0 and 100, 0 when it is
    below, 100 when it is above.  The sum may be taken along any
    enumeration of the five tags, the array may list its tags in any
    order, and putting Clickbait or TooShort in the array or taking it out
    leaves the confidence as it was. *)
Theorem C1_confidence_is_clamped_delta_sum (signals : list Signal) :
  map delta weighted = [-30; 25; -20; -15; -25] /\
  fakeConfidenceFromSignals signals =
    Z.max 0 (Z.min 100 (50 + deltaSum weighted signals)) /\
  0 <= fakeConfidenceFromSignals signals <= 100 /\
  (forall order, Permutation weighted order ->
     fakeConfidenceFromSignals signals =
       Z.max 0 (Z.min 100 (50 + deltaSum order signals))) /\
  (forall signals', sameSignals signals signals' ->
     fakeConfidenceFromSignals signals' = fakeConfidenceFromSignals signals) /\
  (forall s, s = Clickbait \/ s = TooShort ->
     fakeConfidenceFromSignals (s :: signals) = fakeConfidenceFromSignals signals /\
     fakeConfidenceFromSignals (signals ++ [s]) = fakeConfidenceFromSignals signals /\
     fakeConfidenceFromSignals (without s signals) = fakeConfidenceFromSignals signals).
Proof.
  split; [reflexivity|].
  split; [apply fakeConfidence_max_min|].
  split; [rewrite fakeConfidence_max_min; lia|].
  split.
  { intros order Hp. rewrite fakeConfidence_max_min.
    now rewrite (deltaSum_perm _ _ _ Hp). }
  split.
  { intros signals' Hs. apply fakeConfidence_ext. intros s _.
    symmetry. now apply has_same. }
  intros s Hs. repeat split; apply fakeConfidence_ext; intros x Hx;
    pose proof (weighted_not_soft s x Hs Hx) as Hne.
  - now apply has_cons_other.
  - rewrite has_app. unfold has at 2. simpl.
    destruct (Signal_eqb x s) eqn:E.
    + apply Signal_eqb_eq in E. contradiction.
    + now rewrite !orb_false_r.
  - now apply has_without_other.
Qed.

Lemma C1_witness :
  fakeConfidenceFromSignals [Clickbait; NoSources; AuthoritativeSources]
    = Z.max 0 (Z.min 100
                 (50 + deltaSum (rev weighted)
                         [Clickbait; NoSources; AuthoritativeSources])) /\
  fakeConfidenceFromSignals [AuthoritativeSources; NoSources; Clickbait; NoSources]
    = fakeConfidenceFromSignals [Clickbait; NoSources; AuthoritativeSources] /\
  fakeConfidenceFromSignals (without Clickbait [Clickbait; NoSources; AuthoritativeSources])
    = fakeConfidenceFromSignals [Clickbait; NoSources; AuthoritativeSources] /\
  fakeConfidenceFromSignals (TooShort :: [Clickbait; NoSources; AuthoritativeSources]) = 60 /\
  fakeConfidenceFromSignals
    (TooShort :: [ManyContradictions; FabricatedDates; ImageManipulated]) = 0.
Proof.
  pose proof (C1_confidence_is_clamped_delta_sum
                [Clickbait; NoSources; AuthoritativeSources])
    as [_ [_ [_ [Hord [Hsame Hsoft]]]]].
  pose proof (C1_confidence_is_clamped_delta_sum
                [ManyContradictions; FabricatedDates; ImageManipulated])
    as [_ [Hsum [_ [_ [_ Hsoft']]]]].
  split; [apply Hord, Permutation_rev|].
  split.
  { apply Hsame. intro s. simpl. tauto. }
  split.
  { apply (Hsoft Clickbait). now left. }
  split.
  { destruct (Hsoft TooShort) as [H _]; [now right|].
    rewrite H. reflexivity. }
  destruct (Hsoft' TooShort) as [H _]; [now right|].
  rewrite H, Hsum. reflexivity.
Defined.

(** C2.  The verdict of a result is a function of its confidence alone:
    60 and above is LikelyReal, 35 and below is LikelyFake, 36 to 59 is
    NeedsReview; so 60 is LikelyReal, 35 is LikelyFake and 36 is
    NeedsReview.  A text that mentions the CDC and says "according to our
    sources" without a link scores 50 + 25 - 15 = 60 and is LikelyReal.
    Every request whose content can be read has a result; the call throws
    on no other content than a value that is not a string and whose
    [toString] fails. *)
Theorem C2_verdict_from_confidence :
  (forall now req, Js.readable (content req) ->
     exists r,
       mockAnalyze now req = Some r /\ verdict r = verdictOf (confidence r)) /\
  (forall now req r,
     mockAnalyze now req = Some r -> verdict r = verdictOf (confidence r)) /\
  (forall now k s, exists r,
     mockAnalyze now (mkRequest k (Js.Str s)) = Some r /\
     verdict r = verdictOf (confidence r)) /\
  (forall c, 60 <= c -> verdictOf c = LikelyReal) /\
  (forall c, c <= 35 -> verdictOf c = LikelyFake) /\
  (forall c, 36 <= c <= 59 -> verdictOf c = NeedsReview) /\
  verdictOf 60 = LikelyReal /\
  verdictOf 35 = LikelyFake /\
  verdictOf 36 = NeedsReview /\
  (forall now,
     option_map (fun r => (signals r, confidence r, verdict r))
       (mockAnalyze now
          (text (Js.lit "According to our sources, the CDC confirmed it.")))
     = Some ([NoSources; AuthoritativeSources], 50 + 25 - 15, LikelyReal)).
Proof.
  assert (Hv : forall now req r,
             mockAnalyze now req = Some r -> verdict r = verdictOf (confidence r)).
  { intros now req r Hr.
    now destruct (mockAnalyze_wellFormed now req r Hr) as [_ [Hv _]]. }
  assert (Ht : forall now req, Js.readable (content req) ->
             exists r, mockAnalyze now req = Some r /\
                       verdict r = verdictOf (confidence r)).
  { intros now req Hread. destruct (mockAnalyze_total now req Hread) as [r Hr].
    exists r. split; [assumption | now apply (Hv now req)]. }
  split; [exact Ht|].
  split; [exact Hv|].
  split; [intros now k s; apply Ht, readable_Str|].
  unfold verdictOf.
  split.
  { intros c Hc. destruct (Z.leb_spec 60 c); [reflexivity | lia]. }
  split.
  { intros c Hc. destruct (Z.leb_spec 60 c); [lia|].
    destruct (Z.leb_spec c 35); [reflexivity | lia]. }
  split.
  { intros c Hc. destruct (Z.leb_spec 60 c); [lia|].
    destruct (Z.leb_spec c 35); [lia | reflexivity]. }
  repeat split.
Qed.

Lemma C2_witness :
  verdictOf 75 = LikelyReal /\ verdictOf 20 = LikelyFake /\ verdictOf 59 = NeedsReview /\
  exists r,
    mockAnalyze clock2026 (mkRequest KUrl (Js.Num elevenDigits)) = Some r /\
    verdict r = verdictOf (confidence r).
Proof.
  destruct C2_verdict_from_confidence as [Htotal [_ [_ [Hreal [Hfake [Hreview _]]]]]].
  split; [apply Hreal; lia|].
  split; [apply Hfake; lia|].
  split; [apply Hreview; lia|].
  apply Htotal. intros _. discriminate.
Defined.

(** C3.  The confidence is an integer of [0,100], for every array of tags
    and so for every result.  With the four tags of negative weight all
    present the sum 50 - 30 - 20 - 15 - 25 = -40 is clamped to 0, and no sum
    passes the upper end 100. *)
Theorem C3_confidence_range :
  (forall signals, 0 <= fakeConfidenceFromSignals signals <= 100) /\
  (forall now req, Js.readable (content req) ->
     exists r, mockAnalyze now req = Some r /\ 0 <= confidence r <= 100) /\
  (forall now req r, mockAnalyze now req = Some r -> 0 <= confidence r <= 100) /\
  (forall now k s, exists r,
     mockAnalyze now (mkRequest k (Js.Str s)) = Some r /\ 0 <= confidence r <= 100) /\
  50 + deltaSum weighted [ManyContradictions; FabricatedDates; NoSources; ImageManipulated]
    = 50 - 30 - 20 - 15 - 25 /\
  fakeConfidenceFromSignals [ManyContradictions; FabricatedDates; NoSources; ImageManipulated]
    = 0 /\
  (forall signals,
     In ManyContradictions signals -> In FabricatedDates signals ->
     In NoSources signals -> In ImageManipulated signals ->
     fakeConfidenceFromSignals signals = 0) /\
  (forall n, n <= 0 -> clamp n 0 100 = 0) /\
  (forall n, 100 <= n -> clamp n 0 100 = 100) /\
  (forall n, 0 <= n <= 100 -> clamp n 0 100 = n).
Proof.
  assert (Hc : forall now req r,
             mockAnalyze now req = Some r -> 0 <= confidence r <= 100).
  { intros now req r Hr.
    now destruct (mockAnalyze_wellFormed now req r Hr) as [Hc _]. }
  assert (Ht : forall now req, Js.readable (content req) ->
             exists r, mockAnalyze now req = Some r /\ 0 <= confidence r <= 100).
  { intros now req Hread. destruct (mockAnalyze_total now req Hread) as [r Hr].
    exists r. split; [assumption | now apply (Hc now req)]. }
  split; [intro; apply clamp_range|].
  split; [exact Ht|].
  split; [exact Hc|].
  split; [intros now k s; apply Ht, readable_Str|].
  split; [reflexivity|].
  split; [reflexivity|].
  split.
  { intros signals H1 H2 H3 H4. apply has_In in H1, H2, H3, H4.
    unfold fakeConfidenceFromSignals. rewrite H1, H2, H3, H4.
    now destruct (has signals AuthoritativeSources). }
  unfold clamp. repeat split; intros; lia.
Qed.

Lemma C3_witness :
  fakeConfidenceFromSignals
    [AuthoritativeSources; ImageManipulated; NoSources; FabricatedDates;
     ManyContradictions] = 0 /\
  clamp (-40) 0 100 = 0 /\ clamp 130 0 100 = 100 /\ clamp 60 0 100 = 60 /\
  exists r,
    mockAnalyze clock2026 (mkRequest KText (Js.Bool true)) = Some r /\
    0 <= confidence r <= 100.
Proof.
  destruct C3_confidence_range
    as [_ [Htotal [_ [_ [_ [_ [Hall [Hlo [Hhi Hmid]]]]]]]]].
  split; [apply Hall; simpl; tauto|].
  split; [apply Hlo; lia|].
  split; [apply Hhi; lia|].
  split; [apply Hmid; lia|].
  apply Htotal. intros _. discriminate.
Defined.

(** C9.  The confidence never passes 75, the baseline 50 plus the one
    positive delta.  The verdict is LikelyReal exactly when
    AuthoritativeSources is present and no tag of negative weight other
    than NoSources is. *)
Theorem C9_likelyReal_needs_authority (signals : list Signal) :
  fakeConfidenceFromSignals signals <= 75 /\
  (verdictOf (fakeConfidenceFromSignals signals) = LikelyReal <->
   In AuthoritativeSources signals /\
   forall s, In s signals -> delta s < 0 -> s = NoSources).
Proof.
  split.
  { unfold fakeConfidenceFromSignals, clamp.
    destruct (has signals ManyContradictions), (has signals AuthoritativeSources),
      (has signals FabricatedDates), (has signals NoSources),
      (has signals ImageManipulated); lia. }
  rewrite likelyReal_tests, has_In, !has_false_not_In. split.
  - intros [Ha [Hm [Hf Hi]]]. split; [assumption|].
    intros s Hin Hd. destruct s; simpl in Hd; try lia; tauto.
  - intros [Ha Hneg]. split; [assumption|].
    repeat split; intro Hin; specialize (Hneg _ Hin); simpl in Hneg;
      discriminate Hneg; lia.
Qed.

Lemma C9_witness :
  verdictOf (fakeConfidenceFromSignals [NoSources; AuthoritativeSources]) = LikelyReal /\
  verdictOf (fakeConfidenceFromSignals [AuthoritativeSources]) = LikelyReal /\
  verdictOf (fakeConfidenceFromSignals [AuthoritativeSources; FabricatedDates])
    <> LikelyReal.
Proof.
  split; [|split].
  - apply (C9_likelyReal_needs_authority [NoSources; AuthoritativeSources]).
    split; [simpl; tauto|].
    intros s [<- | [<- | []]] Hd; [reflexivity | simpl in Hd; lia].
  - apply (C9_likelyReal_needs_authority [AuthoritativeSources]).
    split; [simpl; tauto|].
    intros s [<- | []] Hd. simpl in Hd. lia.
  - intro H.
    apply (C9_likelyReal_needs_authority [AuthoritativeSources; FabricatedDates])
      in H.
    destruct H as [_ H]. specialize (H FabricatedDates).
    discriminate H; simpl; [tauto | lia].
Defined.

Lemma filter_none {A : Type} (f : A -> bool) (l : list A) :
  (forall x, In x l -> f x = false) -> filter f l = [].
Proof.
  induction l as [|a l IH]; intro H; simpl; [reflexivity|].
  rewrite (H a (or_introl eq_refl)). apply IH.
  intros x Hx. apply H. now right.
Qed.

(** ** The explanation *)

(** C4, as the code has it.  The explanation holds the sentence of each tag
    present, once, in the order TooShort, Clickbait, NoSources,
    FabricatedDates, AuthoritativeSources, ImageManipulated,
    ManyContradictions; when no tag is present it is the fallback sentence
    alone; it is never empty. *)
Theorem C4_explanation_in_code_order (signals : list Signal) :
  explain signals = explainAlong explainOrder signals /\
  explain signals <> [] /\
  NoDup explainOrder /\
  (forall s, In s explainOrder) /\
  (forall s, In s signals ->
     explain signals = map sentence (filter (has signals) explainOrder) /\
     In (sentence s) (explain signals)) /\
  ((forall s, ~ In s signals) -> explain signals = [fallbackSentence]).
Proof.
  split; [apply explain_along|].
  split; [apply explain_nonempty|].
  split.
  { unfold explainOrder.
    repeat (constructor; [simpl; intuition discriminate|]). constructor. }
  split; [intros []; simpl; tauto|].
  assert (Hall : forall s, In s explainOrder) by (intros []; simpl; tauto).
  split.
  - intros s Hin. rewrite explain_along. unfold explainAlong.
    assert (Hs : In (sentence s) (map sentence (filter (has signals) explainOrder))).
    { apply in_map, filter_In. split; [apply Hall | now apply has_In]. }
    destruct (map sentence (filter (has signals) explainOrder)) eqn:E.
    + destruct Hs.
    + split; [reflexivity | assumption].
  - intro Hnone. rewrite explain_along. unfold explainAlong.
    replace (filter (has signals) explainOrder) with (@nil Signal); [reflexivity|].
    symmetry. apply filter_none. intros s _. apply has_false_not_In, Hnone.
Qed.

Lemma C4_witness :
  explain [ImageManipulated; AuthoritativeSources]
    = [sentence AuthoritativeSources; sentence ImageManipulated] /\
  explain [] = [fallbackSentence].
Proof.
  destruct (C4_explanation_in_code_order [ImageManipulated; AuthoritativeSources])
    as [_ [_ [_ [_ [Hsome _]]]]].
  destruct (C4_explanation_in_code_order []) as [_ [_ [_ [_ [_ Hnone]]]]].
  split.
  - destruct (Hsome ImageManipulated) as [H _]; [simpl; tauto|].
    rewrite H. reflexivity.
  - apply Hnone. intros s [].
Defined.

(** The stated order Clickbait, NoSources, FabricatedDates,
    ImageManipulated, AuthoritativeSources, ManyContradictions, TooShort is
    not the order of the code: the sentence of TooShort comes first, and the
    sentence of AuthoritativeSources comes before that of ImageManipulated. *)
Lemma C4_counterexample :
  option_map explanation (mockAnalyze clock2026 (text (Js.lit "SHOCKING!")))
    = Some [sentence TooShort; sentence Clickbait] /\
  option_map signals (mockAnalyze clock2026 (text (Js.lit "SHOCKING!")))
    = Some [TooShort; Clickbait] /\
  explainAlong statedOrder [TooShort; Clickbait]
    = [sentence Clickbait; sentence TooShort] /\
  explain [TooShort; Clickbait] <> explainAlong statedOrder [TooShort; Clickbait] /\
  explain [ImageManipulated; AuthoritativeSources]
    <> explainAlong statedOrder [ImageManipulated; AuthoritativeSources].
Proof.
  repeat split; discriminate.
Qed.

(** ** Dates in the text *)

Lemma matchHere_prefix (r : Js.regex) (s m : Js.str) :
  Js.matchHere r s = Some m -> exists b, s = m ++ b.
Proof.
  revert s m. induction r as [|i r IH]; intros s m; simpl.
  - intros [= <-]. now exists s.
  - destruct s as [|c s]; [discriminate|].
    destruct (Js.item_matches i c); [|discriminate].
    destruct (Js.matchHere r s) as [m'|] eqn:E; [|discriminate].
    intros [= <-]. destruct (IH _ _ E) as [b ->]. now exists b.
Qed.

Lemma matchHere_length (r : Js.regex) (s m : Js.str) :
  Js.matchHere r s = Some m -> List.length m = List.length r.
Proof.
  revert s m. induction r as [|i r IH]; intros s m; simpl.
  - now intros [= <-].
  - destruct s as [|c s]; [discriminate|].
    destruct (Js.item_matches i c); [|discriminate].
    destruct (Js.matchHere r s) as [m'|] eqn:E; [|discriminate].
    intros [= <-]. simpl. f_equal. eapply IH, E.
Qed.

Lemma matchHere_mono (r r' : Js.regex) :
  Forall2 item_le r r' ->
  forall s m, Js.matchHere r s = Some m -> Js.matchHere r' s = Some m.
Proof.
  induction 1 as [|i j r r' Hij _ IH]; intros s m; simpl; [trivial|].
  destruct s as [|c s]; [discriminate|].
  destruct (Js.item_matches i c) eqn:Ei; [|discriminate].
  rewrite (Hij c Ei).
  destruct (Js.matchHere r s) as [m'|] eqn:E; [|discriminate].
  now rewrite (IH _ _ E).
Qed.

Lemma regexMatch_mono (r r' : Js.regex) :
  Forall2 item_le r r' ->
  forall s m, Js.regexMatch r s = Some m -> exists m', Js.regexMatch r' s = Some m'.
Proof.
  intros Hle s. induction s as [|c s IH]; intros m; cbn [Js.regexMatch].
  - destruct (Js.matchHere r []) as [m0|] eqn:E; [|discriminate].
    intros _. rewrite (matchHere_mono _ _ Hle _ _ E). eauto.
  - destruct (Js.matchHere r (c :: s)) as [m0|] eqn:E.
    + intros _. rewrite (matchHere_mono _ _ Hle _ _ E). eauto.
    + intro H. destruct (Js.matchHere r' (c :: s)); eauto.
Qed.

(** [regexMatch] returns the leftmost match: the text splits as [a ++ rest]
    with the match at the head of [rest] and no match at any earlier
    position. *)
Lemma regexMatch_leftmost (r : Js.regex) (s tok : Js.str) :
  Js.regexMatch r s = Some tok <->
  exists a rest,
    s = a ++ rest /\ Js.matchHere r rest = Some tok /\
    forall a1 a2, a = a1 ++ a2 -> a2 <> [] -> Js.matchHere r (a2 ++ rest) = None.
Proof.
  revert tok. induction s as [|c s IH]; intro tok; cbn [Js.regexMatch].
  - split.
    + destruct (Js.matchHere r []) as [m|] eqn:E; [|discriminate].
      intros [= <-]. exists [], []. repeat split; [assumption|].
      intros a1 a2 H. destruct a1, a2; try discriminate. congruence.
    + intros [a [rest [Hs [Hm _]]]].
      destruct a; [|discriminate]. simpl in Hs. subst rest. now rewrite Hm.
  - destruct (Js.matchHere r (c :: s)) as [m|] eqn:E; split.
    + intros [= <-]. exists [], (c :: s). repeat split; [assumption|].
      intros a1 a2 H. destruct a1, a2; try discriminate. congruence.
    + intros [a [rest [Hs [Hm Hnone]]]]. destruct a as [|d a].
      * simpl in Hs. subst rest. congruence.
      * specialize (Hnone [] (d :: a) eq_refl). rewrite <- Hs, E in Hnone.
        discriminate Hnone. discriminate.
    + intro H. apply IH in H. destruct H as [a [rest [Hs [Hm Hnone]]]].
      exists (c :: a), rest. split; [simpl; congruence|].
      split; [assumption|].
      intros a1 a2 Ha Hne. destruct a1 as [|d a1]; simpl in Ha.
      * subst a2. simpl. now rewrite <- Hs.
      * injection Ha as _ Ha. now apply (Hnone a1 a2).
    + intros [a [rest [Hs [Hm Hnone]]]]. destruct a as [|d a].
      * simpl in Hs. subst rest. congruence.
      * apply IH. exists a, rest. simpl in Hs. injection Hs as _ Hs.
        split; [assumption|]. split; [assumption|].
        intros a1 a2 Ha Hne. apply (Hnone (d :: a1) a2); [|assumption].
        simpl. now rewrite Ha.
Qed.

Lemma iso20_le_iso : Forall2 item_le iso20Date Js.isoDate.
Proof.
  assert (Hd : forall i, item_le i i) by (intros i c H; exact H).
  assert (Hl : forall d, Js.isDigit d = true -> item_le (Js.Lit d) Js.Digit).
  { intros d Hd' c H. simpl in *. apply N.eqb_eq in H. now subst. }
  unfold iso20Date, Js.isoDate.
  repeat (constructor; [first [apply Hl; reflexivity | apply Hd]|]).
  constructor.
Qed.

(** The outer test of the date block adds nothing to the inner one. *)
Lemma futureDateFound_inner (now : Z) (lower : Js.str) :
  futureDateFound now lower =
  match Js.regexMatch iso20Date lower with
  | Some futureDate => Js.Date_gt (Js.Date_parse futureDate) now
  | None => false
  end.
Proof.
  unfold futureDateFound.
  destruct (Js.regexMatch iso20Date lower) as [tok|] eqn:E.
  - destruct (regexMatch_mono _ _ iso20_le_iso _ _ E) as [m' ->]. reflexivity.
  - now destruct (Js.regexMatch Js.isoDate lower).
Qed.

Lemma futureDateFound_iff (now : Z) (lower : Js.str) :
  futureDateFound now lower = true <->
  exists tok ms,
    Js.regexMatch iso20Date lower = Some tok /\
    Js.Date_parse tok = Some ms /\ now < ms.
Proof.
  rewrite futureDateFound_inner. split.
  - destruct (Js.regexMatch iso20Date lower) as [tok|]; [|discriminate].
    unfold Js.Date_gt.
    destruct (Js.Date_parse tok) as [ms|] eqn:Ep; [|discriminate].
    intro H. apply Z.ltb_lt in H. exists tok, ms. auto.
  - intros [tok [ms [-> [Hp Hlt]]]]. rewrite Hp. now apply Z.ltb_lt.
Qed.

(** When the signal fires, some date of the text is in the future. *)
Lemma futureDateFound_sound (now : Z) (lower : Js.str) :
  futureDateFound now lower = true -> anyFutureIsoDate now lower = true.
Proof.
  rewrite futureDateFound_inner.
  induction lower as [|c s IH]; cbn [Js.regexMatch anyFutureIsoDate].
  - discriminate.
  - destruct (Js.matchHere iso20Date (c :: s)) as [m|] eqn:E.
    + rewrite (matchHere_mono _ _ iso20_le_iso _ _ E). now intros ->.
    + intro H. rewrite (IH H). apply orb_true_r.
Qed.

Lemma orb_occurs (s a b : Js.str) :
  (Js.includes s a || Js.includes s b)%bool = true <-> occursIn a s \/ occursIn b s.
Proof. now rewrite orb_true_iff, !includes_occurs. Qed.

(** Membership of each tag in the collected array, test by test. *)
Lemma In_TooShort now c lower :
  In TooShort (collectSignals now c lower) <->
  Js.truthy c = false \/ (List.length (Js.trim lower) < 10)%nat.
Proof.
  rewrite <- has_In, collect_TooShort, orb_true_iff, negb_true_iff.
  now rewrite Nat.ltb_lt.
Qed.

Lemma In_Clickbait now c lower :
  In Clickbait (collectSignals now c lower) <->
  occursIn (Js.lit "shocking") lower \/ occursIn (Js.lit "you won't believe") lower.
Proof. rewrite <- has_In, collect_Clickbait. apply orb_occurs. Qed.

Lemma In_NoSources now c lower :
  In NoSources (collectSignals now c lower) <->
  occursIn (Js.lit "according to our sources") lower
  /\ ~ occursIn (Js.lit "https") lower.
Proof.
  rewrite <- has_In, collect_NoSources, andb_true_iff, negb_true_iff.
  rewrite <- !includes_occurs.
  destruct (Js.includes lower (Js.lit "https")); intuition congruence.
Qed.

Lemma In_FabricatedDates now c lower :
  In FabricatedDates (collectSignals now c lower) <->
  futureDateFound now lower = true.
Proof. now rewrite <- has_In, collect_FabricatedDates. Qed.

Lemma In_ImageManipulated now c lower :
  In ImageManipulated (collectSignals now c lower) <->
  occursIn (Js.lit "deepfake") lower \/ occursIn (Js.lit "ai-generated") lower.
Proof. rewrite <- has_In, collect_ImageManipulated. apply orb_occurs. Qed.

Lemma In_AuthoritativeSources now c lower :
  In AuthoritativeSources (collectSignals now c lower) <->
  occursIn (Js.lit "cdc") lower \/ occursIn (Js.lit "who") lower
  \/ occursIn (Js.lit "nyt") lower.
Proof.
  rewrite <- has_In, collect_AuthoritativeSources.
  rewrite !orb_true_iff, !includes_occurs. tauto.
Qed.

Lemma In_ManyContradictions now c lower :
  In ManyContradictions (collectSignals now c lower) <->
  occursIn (Js.lit "contradictory") lower \/ occursIn (Js.lit "but then") lower.
Proof. rewrite <- has_In, collect_ManyContradictions. apply orb_occurs. Qed.

(** The clock enters the array through the date block alone. *)
Lemma collect_clock (now now' : Z) (c : Js.value) (lower : Js.str) :
  futureDateFound now lower = futureDateFound now' lower ->
  collectSignals now c lower = collectSignals now' c lower.
Proof. unfold collectSignals. now intros ->. Qed.

Lemma futureDateFound_token (now : Z) (lower tok : Js.str) (ms : Z) :
  Js.regexMatch iso20Date lower = Some tok ->
  Js.Date_parse tok = Some ms ->
  futureDateFound now lower = (now <? ms).
Proof.
  intros Hm Hp. now rewrite futureDateFound_inner, Hm, Hp.
Qed.

(** C5, as the code has it.  FabricatedDates is in the array exactly when
    the lower-cased text holds a token [20dd-dd-dd] and the leftmost such
    token, read as a date (month 01..12, day 01..31, UTC midnight), is
    strictly later than the clock.  When the signal fires some date of the
    text is in the future.  A text whose only date is 2020-01-01 does not
    fire at any clock from that day on, and a text whose only date is
    2099-12-31 fires at every clock before that day.  This is so for every
    content that can be read: every string, and every other value but one
    whose [toString] fails. *)
Theorem C5_fabricatedDates_leftmost_20xx (now : Z) (c : Js.value) :
  (Js.readable c ->
   exists lower sigs,
     lowered c = Some lower /\
     extractSignals now c = Some sigs /\
     (In FabricatedDates sigs <->
        exists tok ms,
          Js.regexMatch iso20Date lower = Some tok /\
          Js.Date_parse tok = Some ms /\ now < ms) /\
     (In FabricatedDates sigs -> anyFutureIsoDate now lower = true)) /\
  (forall s, exists sigs,
     extractSignals now (Js.Str s) = Some sigs /\
     (In FabricatedDates sigs <->
        exists tok ms,
          Js.regexMatch iso20Date (Js.toLowerCase s) = Some tok /\
          Js.Date_parse tok = Some ms /\ now < ms) /\
     (In FabricatedDates sigs -> anyFutureIsoDate now (Js.toLowerCase s) = true)) /\
  (1577836800000 <= now ->
     extractSignals now (Js.Str (Js.lit "The bill was signed on 2020-01-01."))
     = Some []) /\
  (now < 4102358400000 ->
     extractSignals now (Js.Str (Js.lit "The bill was signed on 2099-12-31."))
     = Some [FabricatedDates]).
Proof.
  assert (Hgen : forall c lower, lowered c = Some lower ->
             extractSignals now c = Some (collectSignals now c lower) /\
             (In FabricatedDates (collectSignals now c lower) <->
                exists tok ms,
                  Js.regexMatch iso20Date lower = Some tok /\
                  Js.Date_parse tok = Some ms /\ now < ms) /\
             (In FabricatedDates (collectSignals now c lower) ->
              anyFutureIsoDate now lower = true)).
  { intros c0 lower Hl. split; [now apply extractSignals_lowered|].
    rewrite In_FabricatedDates. split.
    - apply futureDateFound_iff.
    - apply futureDateFound_sound. }
  split.
  { intro Hr. destruct (lowered_total c Hr) as [lower Hl].
    exists lower, (collectSignals now c lower).
    split; [assumption | now apply Hgen]. }
  split.
  { intro s. exists (collectSignals now (Js.Str s) (Js.toLowerCase s)).
    apply Hgen, lowered_Str. }
  split; intro Hnow.
  - rewrite (extractSignals_lowered _ _ _ (lowered_Str _)).
    rewrite (collect_clock now clock2026); [reflexivity|].
    rewrite (futureDateFound_token now _ (Js.lit "2020-01-01") 1577836800000);
      [|reflexivity|reflexivity].
    destruct (Z.ltb_spec now 1577836800000); [lia | reflexivity].
  - rewrite (extractSignals_lowered _ _ _ (lowered_Str _)).
    rewrite (collect_clock now clock2026); [reflexivity|].
    rewrite (futureDateFound_token now _ (Js.lit "2099-12-31") 4102358400000);
      [|reflexivity|reflexivity].
    destruct (Z.ltb_spec now 4102358400000); [reflexivity | lia].
Qed.

Lemma C5_witness :
  extractSignals clock2026 (Js.Str (Js.lit "The bill was signed on 2020-01-01."))
    = Some [] /\
  extractSignals clock2026 (Js.Str (Js.lit "The bill was signed on 2099-12-31."))
    = Some [FabricatedDates] /\
  anyFutureIsoDate clock2026 (Js.lit "the bill was signed on 2099-12-31.") = true.
Proof.
  destruct (C5_fabricatedDates_leftmost_20xx clock2026
              (Js.Str (Js.lit "The bill was signed on 2099-12-31.")))
    as [Hgen [_ [Hpast Hfuture]]].
  destruct (Hgen (readable_Str _)) as [lower [sigs [Hl [Hs [_ Hsound]]]]].
  split; [apply Hpast; unfold clock2026; lia|].
  split; [apply Hfuture; unfold clock2026; lia|].
  rewrite lowered_Str in Hl. injection Hl as <-.
  apply Hsound.
  rewrite Hfuture in Hs by (unfold clock2026; lia).
  injection Hs as <-. simpl. tauto.
Defined.

(** A date of the year 2100 is in the future and does not fire the signal;
    neither does a future date that stands after a past one. *)
Lemma C5_counterexample :
  Js.regexMatch Js.isoDate
    (Js.toLowerCase (Js.lit "The treaty takes effect on 2100-01-01."))
    = Some (Js.lit "2100-01-01") /\
  Js.Date_parse (Js.lit "2100-01-01") = Some 4102444800000 /\
  clock2026 < 4102444800000 /\
  anyFutureIsoDate clock2026
    (Js.toLowerCase (Js.lit "The treaty takes effect on 2100-01-01."))
    = true /\
  extractSignals clock2026 (Js.Str (Js.lit "The treaty takes effect on 2100-01-01."))
    = Some [] /\
  anyFutureIsoDate clock2026
    (Js.toLowerCase (Js.lit "Filed on 2020-01-01, due on 2099-01-01."))
    = true /\
  extractSignals clock2026 (Js.Str (Js.lit "Filed on 2020-01-01, due on 2099-01-01."))
    = Some [].
Proof.
  repeat split.
Qed.

(** ** Content that is not a string *)

(** The value enters the array through its truth value alone. *)
Lemma collect_truthy (now : Z) (c c' : Js.value) (lower : Js.str) :
  Js.truthy c = Js.truthy c' ->
  collectSignals now c lower = collectSignals now c' lower.
Proof. unfold collectSignals. now intros ->. Qed.

(** More exactly, through the test of line 42. *)
Lemma collect_content (now : Z) (c c' : Js.value) (lower : Js.str) :
  (negb (Js.truthy c) || Nat.ltb (List.length (Js.trim lower)) 10)%bool =
  (negb (Js.truthy c') || Nat.ltb (List.length (Js.trim lower)) 10)%bool ->
  collectSignals now c lower = collectSignals now c' lower.
Proof. unfold collectSignals. now intros ->. Qed.

Lemma mockAnalyze_falsy (now : Z) (req : AnalysisRequest) :
  Js.truthy (content req) = false ->
  mockAnalyze now req = mockAnalyze now (text []).
Proof.
  intro H.
  rewrite (mockAnalyze_lowered now req [] (lowered_falsy _ H)).
  rewrite (mockAnalyze_lowered now (text []) [] eq_refl).
  now rewrite (collect_truthy now (content req) (content (text []))) by now rewrite H.
Qed.

Lemma mockAnalyze_toString (now : Z) (req : AnalysisRequest) (s : Js.str) :
  Js.truthy (content req) = true ->
  Js.toString (content req) = Some s ->
  mockAnalyze now req = mockAnalyze now (text s).
Proof.
  intros Ht Hs.
  assert (Hl : lowered (content req) = Some (Js.toLowerCase s)).
  { now rewrite (lowered_truthy _ Ht), Hs. }
  rewrite (mockAnalyze_lowered now req _ Hl).
  rewrite (mockAnalyze_lowered now (text s) _ (lowered_Str s)).
  rewrite (collect_content now (content req) (content (text s))); [reflexivity|].
  rewrite Ht. cbn [content text negb orb].
  destruct s as [|c s]; reflexivity.
Qed.

Lemma mockAnalyze_None (now : Z) (req : AnalysisRequest) :
  mockAnalyze now req = None <->
  Js.truthy (content req) = true /\ Js.toString (content req) = None.
Proof.
  split.
  - intro H. destruct (Js.truthy (content req)) eqn:Et.
    + split; [reflexivity|].
      destruct (Js.toString (content req)) as [s|] eqn:Es; [|reflexivity].
      rewrite (mockAnalyze_toString now req s Et Es) in H.
      destruct (mockAnalyze_total now (text s) (readable_Str s)) as [r Hr].
      congruence.
    + rewrite (mockAnalyze_falsy now req Et) in H.
      destruct (mockAnalyze_total now (text []) (readable_Str [])) as [r Hr].
      congruence.
  - intros [Ht Hs]. unfold mockAnalyze.
    now rewrite (lowered_truthy _ Ht), Hs.
Qed.

Lemma unreadable_is_Other (c : Js.value) :
  Js.truthy c = true /\ Js.toString c = None <-> c = Js.Other true None.
Proof.
  split.
  - intros [Ht Hs]. destruct c as [| |[]|n|s|t [x|]]; simpl in *;
      try discriminate. now subst.
  - intros ->. now split.
Qed.

(** C6, as the code has it.  The call throws on one kind of content only:
    a truthy value that is not a string and whose [toString] throws or
    returns no string.  On every other content (absent, null, a boolean, a
    number, a string, a value with a working [toString]) it returns a
    well-formed result.  Content that is absent or otherwise falsy is
    analysed as the empty string is: the array is TooShort alone, the
    confidence 50, the verdict NeedsReview.  Truthy content is analysed as
    the string that its [toString] returns is. *)
Theorem C6_total_and_falsy_is_empty (now : Z) (req : AnalysisRequest) :
  (mockAnalyze now req = None <->
   Js.truthy (content req) = true /\ Js.toString (content req) = None) /\
  (mockAnalyze now req = None <-> content req = Js.Other true None) /\
  (Js.readable (content req) ->
   exists r, mockAnalyze now req = Some r /\ wellFormed r) /\
  (forall r, mockAnalyze now req = Some r -> wellFormed r) /\
  mockAnalyze now (text [])
    = Some (mkResult NeedsReview 50 [TooShort] [sentence TooShort]
              recommendedActionsList) /\
  mockAnalyze now (mkRequest (type req) Js.Undefined) = mockAnalyze now (text []) /\
  mockAnalyze now (mkRequest (type req) Js.Null) = mockAnalyze now (text []) /\
  (Js.truthy (content req) = false -> mockAnalyze now req = mockAnalyze now (text [])) /\
  (forall s, Js.truthy (content req) = true -> Js.toString (content req) = Some s ->
     mockAnalyze now req = mockAnalyze now (text s)).
Proof.
  split; [apply mockAnalyze_None|].
  split; [rewrite mockAnalyze_None; apply unreadable_is_Other|].
  split.
  { intro Hr. destruct (mockAnalyze_total now req Hr) as [r Hres]. exists r.
    split; [assumption | now apply (mockAnalyze_wellFormed now req)]. }
  split; [apply mockAnalyze_wellFormed|].
  split; [reflexivity|].
  split; [now apply mockAnalyze_falsy|].
  split; [now apply mockAnalyze_falsy|].
  split; [apply mockAnalyze_falsy | apply mockAnalyze_toString].
Qed.

Lemma C6_witness :
  mockAnalyze clock2026 (mkRequest KImage (Js.Other false None))
    = mockAnalyze clock2026 (text []) /\
  mockAnalyze clock2026 (mkRequest KText (Js.Num elevenDigits))
    = mockAnalyze clock2026 (text (Js.lit "12345678901")) /\
  exists r,
    mockAnalyze clock2026 (mkRequest KText (Js.Other true (Some (Js.lit "1e+21"))))
      = Some r /\ wellFormed r.
Proof.
  destruct (C6_total_and_falsy_is_empty clock2026
              (mkRequest KImage (Js.Other false None)))
    as [_ [_ [_ [_ [_ [_ [_ [Hfalsy _]]]]]]]].
  destruct (C6_total_and_falsy_is_empty clock2026
              (mkRequest KText (Js.Num elevenDigits)))
    as [_ [_ [_ [_ [_ [_ [_ [_ Htruthy]]]]]]]].
  destruct (C6_total_and_falsy_is_empty clock2026
              (mkRequest KText (Js.Other true (Some (Js.lit "1e+21")))))
    as [_ [_ [Hreads _]]].
  split; [apply Hfalsy; reflexivity|].
  split; [apply Htruthy; reflexivity|].
  apply Hreads. intros _. discriminate.
Defined.

(** A number is not a string and is not analysed as the empty string is:
    its eleven digits are long enough, so TooShort is not in the array.
    And a value without a working [toString] makes the call throw. *)
Lemma C6_counterexample :
  extractSignals clock2026 (Js.Num elevenDigits) = Some [] /\
  extractSignals clock2026 (Js.Str []) = Some [TooShort] /\
  mockAnalyze clock2026 (mkRequest KText (Js.Num elevenDigits))
    <> mockAnalyze clock2026 (text []) /\
  mockAnalyze clock2026 (mkRequest KText (Js.Other true None)) = None.
Proof.
  split; [reflexivity|]. split; [reflexivity|].
  split; [|reflexivity].
  intro H. apply (f_equal (option_map signals)) in H.
  vm_compute in H. discriminate H.
Qed.

(** ** The tests on the text *)

Lemma truthy_lower (s : Js.str) :
  Js.truthy (Js.Str (Js.toLowerCase s)) = Js.truthy (Js.Str s).
Proof.
  destruct s as [|c s]; [reflexivity|]. cbn [Js.truthy].
  destruct (Js.toLowerCase (c :: s)) eqn:E; [|reflexivity].
  apply (proj1 (toLowerCase_empty _)) in E. discriminate E.
Qed.

Lemma extract_case_folded (now : Z) (s : Js.str) :
  extractSignals now (Js.Str (Js.toLowerCase s)) = extractSignals now (Js.Str s).
Proof.
  rewrite (extractSignals_lowered _ _ _ (lowered_Str _)).
  rewrite (extractSignals_lowered _ _ _ (lowered_Str _)).
  rewrite toLowerCase_idem. f_equal. apply collect_truthy, truthy_lower.
Qed.

Lemma tooShort_text (now : Z) (s : Js.str) :
  In TooShort (collectSignals now (Js.Str s) (Js.toLowerCase s)) <->
  (List.length (Js.trim s) + dottedCount (Js.trim s) < 10)%nat.
Proof.
  rewrite In_TooShort, trim_lower_length. split; [|tauto].
  intros [H|H]; [|exact H].
  destruct s as [|d s]; [vm_compute; lia | simpl in H; discriminate H].
Qed.

(** C7, as the code has it.  The tests read the lower-cased text, so a
    text and its lower-cased form give the same array.  TooShort is in
    the array exactly when the content is absent (or otherwise falsy) or
    the trimmed length of its lower-cased text is below 10.  That length
    is the trimmed length of the content with one more for each U+0130
    (the capital I with a dot above, which becomes two code units): for a
    content string TooShort is in the array exactly when its trimmed
    length plus the number of U+0130 it holds is below 10.  Each other
    tag is in the array exactly when its own test holds, whether or not
    TooShort is.  A short text in capitals that holds "shocking" gets both
    TooShort and Clickbait. *)
Theorem C7_tooShort_and_independent_tests (now : Z) (c : Js.value) :
  (Js.readable c ->
   exists lower sigs,
     lowered c = Some lower /\
     extractSignals now c = Some sigs /\
     (forall s, c = Js.Str s ->
        lower = Js.toLowerCase s /\
        extractSignals now (Js.Str (Js.toLowerCase s)) = Some sigs /\
        List.length (Js.trim lower) =
          (List.length (Js.trim s) + dottedCount (Js.trim s))%nat /\
        (In TooShort sigs <->
         (List.length (Js.trim s) + dottedCount (Js.trim s) < 10)%nat) /\
        (dottedCount s = 0%nat ->
         (In TooShort sigs <-> (List.length (Js.trim s) < 10)%nat))) /\
     (Js.truthy c = false \/ (List.length (Js.trim lower) < 10)%nat ->
        In TooShort sigs) /\
     (In TooShort sigs ->
        Js.truthy c = false \/ (List.length (Js.trim lower) < 10)%nat) /\
     (In Clickbait sigs <->
        occursIn (Js.lit "shocking") lower
        \/ occursIn (Js.lit "you won't believe") lower) /\
     (In NoSources sigs <->
        occursIn (Js.lit "according to our sources") lower
        /\ ~ occursIn (Js.lit "https") lower) /\
     (In FabricatedDates sigs <-> futureDateFound now lower = true) /\
     (In ImageManipulated sigs <->
        occursIn (Js.lit "deepfake") lower
        \/ occursIn (Js.lit "ai-generated") lower) /\
     (In AuthoritativeSources sigs <->
        occursIn (Js.lit "cdc") lower \/ occursIn (Js.lit "who") lower
        \/ occursIn (Js.lit "nyt") lower) /\
     (In ManyContradictions sigs <->
        occursIn (Js.lit "contradictory") lower
        \/ occursIn (Js.lit "but then") lower)) /\
  extractSignals now Js.Undefined = Some [TooShort] /\
  extractSignals now (Js.Str (Js.lit "SHOCKING!")) = Some [TooShort; Clickbait].
Proof.
  split; [|split; reflexivity].
  intro Hr. destruct (lowered_total c Hr) as [lower Hl].
  exists lower, (collectSignals now c lower).
  split; [assumption|].
  split; [now apply extractSignals_lowered|].
  split.
  { intros s ->. rewrite lowered_Str in Hl. injection Hl as <-.
    split; [reflexivity|].
    split.
    { rewrite extract_case_folded. apply extractSignals_lowered, lowered_Str. }
    split; [apply trim_lower_length|].
    split; [apply tooShort_text|].
    intro Hd. rewrite tooShort_text.
    assert (Hz : dottedCount (Js.trim s) = 0%nat).
    { clear - Hd. unfold dottedCount in *.
      apply count_occ_not_In. intro Hin.
      apply (count_occ_not_In N.eq_dec s dottedI) in Hd. apply Hd.
      clear Hd. unfold Js.trim in Hin.
      assert (He : forall t x, In x (Js.trimEnd t) -> In x t).
      { induction t as [|d t IH]; intros x Hx; [destruct Hx|].
        rewrite trimEnd_cons in Hx.
        destruct (Js.isWhiteSpace d && forallb Js.isWhiteSpace t)%bool;
          [destruct Hx|].
        destruct Hx as [<-|Hx]; [now left | right; now apply IH]. }
      assert (Hst : forall t x, In x (Js.trimStart t) -> In x t).
      { induction t as [|d t IH]; intros x Hx; [destruct Hx|].
        cbn [Js.trimStart] in Hx. destruct (Js.isWhiteSpace d);
          [right; now apply IH | exact Hx]. }
      now apply Hst, He. }
    rewrite Hz. now rewrite Nat.add_0_r. }
  split; [apply In_TooShort|].
  split; [apply In_TooShort|].
  split; [apply In_Clickbait|].
  split; [apply In_NoSources|].
  split; [apply In_FabricatedDates|].
  split; [apply In_ImageManipulated|].
  split; [apply In_AuthoritativeSources | apply In_ManyContradictions].
Qed.

Lemma C7_witness :
  exists sigs,
    extractSignals clock2026 (Js.Str (Js.lit "  SHOCKING  ")) = Some sigs /\
    In TooShort sigs /\ In Clickbait sigs.
Proof.
  destruct (C7_tooShort_and_independent_tests clock2026
              (Js.Str (Js.lit "  SHOCKING  ")))
    as [Hgen _].
  destruct (Hgen (readable_Str _))
    as [lower [sigs [Hl [Hs [_ [Hshort [_ [Hclick _]]]]]]]].
  rewrite lowered_Str in Hl. injection Hl as <-.
  exists sigs. split; [assumption|]. split.
  - apply Hshort. right. vm_compute. lia.
  - apply Hclick. left. apply includes_occurs. reflexivity.
Defined.

(** Five letters U+0130 are a content whose trimmed length is 5, below 10;
    lower-cased they are ten code units, and TooShort is not in the array. *)
Lemma C7_counterexample :
  List.length (Js.trim [dottedI; dottedI; dottedI; dottedI; dottedI]) = 5%nat /\
  List.length
    (Js.trim (Js.toLowerCase [dottedI; dottedI; dottedI; dottedI; dottedI]))
    = 10%nat /\
  extractSignals clock2026
    (Js.Str [dottedI; dottedI; dottedI; dottedI; dottedI]) = Some [] /\
  ~ (forall now s sigs,
       extractSignals now (Js.Str s) = Some sigs ->
       (List.length (Js.trim s) < 10)%nat -> In TooShort sigs).
Proof.
  split; [reflexivity|]. split; [reflexivity|]. split; [reflexivity|].
  intro H.
  specialize (H clock2026 [dottedI; dottedI; dottedI; dottedI; dottedI] []
                eq_refl).
  apply H. vm_compute. lia.
Qed.

(** C8, as the code has it.  NoSources is in the array exactly when the
    lower-cased text holds "according to our sources" and does not hold
    "https".  A text with the phrase and no link fires the signal; a text
    with the phrase and an https link does not. *)
Theorem C8_noSources_phrase_without_https (now : Z) (c : Js.value) :
  (Js.readable c ->
   exists lower sigs,
     lowered c = Some lower /\
     extractSignals now c = Some sigs /\
     (In NoSources sigs <->
        occursIn (Js.lit "according to our sources") lower
        /\ ~ occursIn (Js.lit "https") lower)) /\
  (forall s, exists sigs,
     extractSignals now (Js.Str s) = Some sigs /\
     (In NoSources sigs <->
        occursIn (Js.lit "according to our sources") (Js.toLowerCase s)
        /\ ~ occursIn (Js.lit "https") (Js.toLowerCase s))) /\
  extractSignals now
    (Js.Str (Js.lit "According to our sources, the vote was rigged."))
    = Some [NoSources] /\
  extractSignals now
    (Js.Str (Js.lit "According to our sources (https://example.org), the vote was rigged."))
    = Some [].
Proof.
  split; [|split; [|split; reflexivity]].
  - intro Hr. destruct (lowered_total c Hr) as [lower Hl].
    exists lower, (collectSignals now c lower).
    split; [assumption|].
    split; [now apply extractSignals_lowered | apply In_NoSources].
  - intro s. exists (collectSignals now (Js.Str s) (Js.toLowerCase s)).
    split; [apply extractSignals_lowered, lowered_Str | apply In_NoSources].
Qed.

Lemma C8_witness :
  exists sigs,
    extractSignals clock2026 (Js.Str (Js.lit "According to OUR sources, it is over."))
      = Some sigs /\
    In NoSources sigs.
Proof.
  destruct (C8_noSources_phrase_without_https clock2026
              (Js.Str (Js.lit "According to OUR sources, it is over.")))
    as [Hgen _].
  destruct (Hgen (readable_Str _)) as [lower [sigs [Hl [Hs Hiff]]]].
  rewrite lowered_Str in Hl. injection Hl as <-.
  exists sigs. split; [assumption|].
  apply Hiff. split.
  - apply includes_occurs. reflexivity.
  - intro H. apply includes_occurs in H. discriminate H.
Defined.

(** A link whose scheme is http is a link all the same, and the signal
    fires next to it. *)
Lemma C8_counterexample :
  urlLike (Js.toLowerCase
             (Js.lit "According to our sources, see http://example.org/report."))
    = true /\
  Js.includes
    (Js.toLowerCase
       (Js.lit "According to our sources, see http://example.org/report."))
    (Js.lit "according to our sources") = true /\
  extractSignals clock2026
    (Js.Str (Js.lit "According to our sources, see http://example.org/report."))
    = Some [NoSources].
Proof.
  repeat split.
Qed.

Lemma deltaSum_weighted_split (sigs : list Signal) :
  deltaSum weighted sigs =
  presentDelta sigs AuthoritativeSources + negativeSum sigs.
Proof.
  unfold negativeSum, deltaSum, weighted. cbn [fold_right]. lia.
Qed.

Lemma negativeSum_without (sigs : list Signal) :
  negativeSum (without AuthoritativeSources sigs) = negativeSum sigs.
Proof.
  unfold negativeSum, deltaSum, presentDelta. cbn [fold_right].
  now rewrite !has_without_other by discriminate.
Qed.

Lemma negativeSum_range (sigs : list Signal) : -90 <= negativeSum sigs <= 0.
Proof.
  unfold negativeSum, deltaSum, presentDelta. cbn [fold_right delta].
  destruct (has sigs ManyContradictions), (has sigs FabricatedDates),
    (has sigs NoSources), (has sigs ImageManipulated); lia.
Qed.

(** C10, as the code has it.  AuthoritativeSources is a test for a
    substring: a text whose lower-cased form holds "cdc", "who" or "nyt" at
    any place, inside a longer word or not, gets the tag.  The tag puts 25
    on the sum before the clamp; the confidence is the sum clamped to
    [0,100].  So the confidence is never below what it is without the
    tag and never more than 25 above; it is 25 above exactly when the sum
    of the other deltas leaves the baseline at 0 or more, and it is 0,
    with the tag as without it, when that sum brings the baseline to -25
    or less. *)
Theorem C10_authoritative_is_substring (now : Z) (s : Js.str) :
  occursIn (Js.lit "cdc") (Js.toLowerCase s)
  \/ occursIn (Js.lit "who") (Js.toLowerCase s)
  \/ occursIn (Js.lit "nyt") (Js.toLowerCase s) ->
  exists r,
    mockAnalyze now (text s) = Some r /\
    In AuthoritativeSources (signals r) /\
    confidence r = Z.max 0 (Z.min 100 (50 + 25 + negativeSum (signals r))) /\
    fakeConfidenceFromSignals (without AuthoritativeSources (signals r)) =
      Z.max 0 (Z.min 100 (50 + negativeSum (signals r))) /\
    fakeConfidenceFromSignals (without AuthoritativeSources (signals r))
      <= confidence r
      <= fakeConfidenceFromSignals (without AuthoritativeSources (signals r)) + 25 /\
    (0 <= 50 + negativeSum (signals r) <->
     confidence r =
       fakeConfidenceFromSignals (without AuthoritativeSources (signals r)) + 25) /\
    (50 + negativeSum (signals r) <= -25 ->
     confidence r = 0 /\
     fakeConfidenceFromSignals (without AuthoritativeSources (signals r)) = 0).
Proof.
  intro H.
  rewrite (mockAnalyze_lowered now (text s) _ (lowered_Str s)).
  eexists. split; [reflexivity|]. cbn [signals confidence content text].
  set (sigs := collectSignals now (Js.Str s) (Js.toLowerCase s)).
  assert (Hin : In AuthoritativeSources sigs)
    by now apply In_AuthoritativeSources.
  split; [assumption|].
  apply has_In in Hin.
  assert (Hwith : fakeConfidenceFromSignals sigs =
                  Z.max 0 (Z.min 100 (50 + 25 + negativeSum sigs))).
  { rewrite fakeConfidence_max_min, deltaSum_weighted_split.
    unfold presentDelta. rewrite Hin. cbn [delta]. do 2 f_equal; lia. }
  assert (Hwithout : fakeConfidenceFromSignals (without AuthoritativeSources sigs) =
                     Z.max 0 (Z.min 100 (50 + negativeSum sigs))).
  { rewrite fakeConfidence_max_min, deltaSum_weighted_split.
    unfold presentDelta. rewrite has_without_same, negativeSum_without.
    do 2 f_equal; lia. }
  pose proof (negativeSum_range sigs) as Hrange.
  rewrite Hwith, Hwithout.
  split; [reflexivity|]. split; [reflexivity|].
  split; [lia|]. split; [lia | lia].
Qed.

Lemma C10_witness :
  (exists r,
     mockAnalyze clock2026
       (text (Js.lit "Whoever wrote this told the whole story.")) = Some r /\
     In AuthoritativeSources (signals r) /\ confidence r = 75) /\
  (exists r,
     mockAnalyze clock2026 (text (Js.lit "Sunnyton is a quiet town.")) = Some r /\
     In AuthoritativeSources (signals r)).
Proof.
  split.
  - destruct (C10_authoritative_is_substring clock2026
                (Js.lit "Whoever wrote this told the whole story."))
      as [r [Hr [Hin [Hc _]]]].
    + right. left. apply includes_occurs. reflexivity.
    + exists r. split; [assumption|]. split; [assumption|].
      rewrite Hc. vm_compute in Hr. injection Hr as <-. reflexivity.
  - destruct (C10_authoritative_is_substring clock2026
                (Js.lit "Sunnyton is a quiet town."))
      as [r [Hr [Hin _]]].
    + right. right. apply includes_occurs. reflexivity.
    + exists r. split; assumption.
Defined.

(** With three tags of negative weight the confidence is 0 whether the
    text names an authority or not: the tag adds nothing to it. *)
Lemma C10_counterexample :
  option_map (fun r => (signals r, confidence r))
    (mockAnalyze clock2026
       (text (Js.lit "Whoever made this deepfake gave a contradictory date, 2099-01-01.")))
    = Some ([FabricatedDates; ImageManipulated; AuthoritativeSources;
             ManyContradictions], 0) /\
  option_map (fun r => (signals r, confidence r))
    (mockAnalyze clock2026
       (text (Js.lit "The maker of this deepfake gave a contradictory date, 2099-01-01.")))
    = Some ([FabricatedDates; ImageManipulated; ManyContradictions], 0) /\
  fakeConfidenceFromSignals
    [FabricatedDates; ImageManipulated; AuthoritativeSources; ManyContradictions]
    <> fakeConfidenceFromSignals
         [FabricatedDates; ImageManipulated; ManyContradictions] + 25.
Proof.
  split; [reflexivity|]. split; [reflexivity|]. discriminate.
Qed.

Example analyze_whoever :
  option_map (fun r => (signals r, confidence r, verdict r))
    (mockAnalyze clock2026 (text (Js.lit "Whoever wrote this told the whole story.")))
  = Some ([AuthoritativeSources], 75, LikelyReal).
Proof. reflexivity. Qed.

(** ** Further properties of the scorer and of the array *)



Lemma collect_in_pushOrder now c lower :
  collectSignals now c lower =
  filter (has (collectSignals now c lower)) pushOrder.
Proof. split_pushes; reflexivity. Qed.

Lemma pushOrder_NoDup : NoDup pushOrder.
Proof.
  unfold pushOrder.
  repeat (constructor; [simpl; intuition discriminate|]). constructor.
Qed.

Lemma filter_length_le {A : Type} (f : A -> bool) (l : list A) :
  (List.length (filter f l) <= List.length l)%nat.
Proof.
  induction l as [|a l IH]; simpl; [lia|]. destruct (f a); simpl; lia.
Qed.

(** X2.  The [signals] array of a result lists its tags in the order
    TooShort, Clickbait, NoSources, FabricatedDates, ImageManipulated,
    AuthoritativeSources, ManyContradictions, each at most once; it has at
    most seven entries.  Every content that can be read has a result. *)
Theorem X2_signals_ordered_without_repeats (now : Z) (req : AnalysisRequest) :
  (Js.readable (content req) ->
   exists r,
     mockAnalyze now req = Some r /\
     signals r = filter (has (signals r)) pushOrder /\
     NoDup (signals r) /\
     (List.length (signals r) <= 7)%nat) /\
  (forall r,
     mockAnalyze now req = Some r ->
     signals r = filter (has (signals r)) pushOrder /\
     NoDup (signals r) /\
     (List.length (signals r) <= 7)%nat).
Proof.
  assert (Hret : forall r, mockAnalyze now req = Some r ->
             signals r = filter (has (signals r)) pushOrder /\
             NoDup (signals r) /\
             (List.length (signals r) <= 7)%nat).
  { intros r Hr. destruct (mockAnalyze_returns now req r Hr) as [lower [_ ->]].
    cbn [signals].
    split; [apply collect_in_pushOrder|].
    rewrite collect_in_pushOrder. split.
    - apply NoDup_filter, pushOrder_NoDup.
    - apply (filter_length_le _ pushOrder). }
  split; [|exact Hret].
  intro Hread. destruct (mockAnalyze_total now req Hread) as [r Hr].
  exists r. split; [assumption | now apply Hret].
Qed.

Lemma X2_witness :
  exists r,
    mockAnalyze clock2026 (text (Js.lit "SHOCKING deepfake")) = Some r /\
    NoDup (signals r).
Proof.
  destruct (X2_signals_ordered_without_repeats clock2026
              (text (Js.lit "SHOCKING deepfake"))) as [H _].
  destruct (H (readable_Str _)) as [r [Hr [_ [Hn _]]]].
  exists r. split; assumption.
Defined.

Lemma explain_collect_length now c lower :
  List.length (explain (collectSignals now c lower)) =
  Nat.max 1 (List.length (collectSignals now c lower)).
Proof. split_pushes; reflexivity. Qed.

Lemma sentence_not_fallback (s : Signal) : sentence s <> fallbackSentence.
Proof. destruct s; discriminate. Qed.

Lemma explainAlong_lines (order sigs : list Signal) (line : Js.str) :
  In line (explainAlong order sigs) ->
  line = fallbackSentence \/ exists s, In s sigs /\ line = sentence s.
Proof.
  unfold explainAlong.
  destruct (map sentence (filter (has sigs) order)) as [|l ls] eqn:E.
  - intros [<- | []]. now left.
  - intro Hin. right. rewrite <- E in Hin. apply in_map_iff in Hin.
    destruct Hin as [s [<- Hs]]. apply filter_In in Hs.
    exists s. split; [now apply has_In | reflexivity].
Qed.

Lemma explain_present (s : Signal) (sigs : list Signal) :
  In s sigs -> explain sigs = map sentence (filter (has sigs) explainOrder).
Proof.
  intro Hin. rewrite explain_along. unfold explainAlong.
  assert (Hs : In (sentence s) (map sentence (filter (has sigs) explainOrder))).
  { apply in_map, filter_In. split; [destruct s; simpl; tauto | now apply has_In]. }
  now destruct (map sentence (filter (has sigs) explainOrder)).
Qed.

(** X3.  The explanation of a result has one line for each entry of its
    [signals] array, or one line when the array is empty; each line is the
    sentence of a tag of the array or the fallback sentence; and the
    fallback sentence is there exactly when the array is empty, which is
    with confidence 50 and verdict NeedsReview.  Every content that can be
    read has a result. *)
Theorem X3_explanation_matches_signals (now : Z) (req : AnalysisRequest) :
  (Js.readable (content req) ->
   exists r,
     mockAnalyze now req = Some r /\
     List.length (explanation r) = Nat.max 1 (List.length (signals r)) /\
     (forall line, In line (explanation r) ->
        line = fallbackSentence \/ exists s, In s (signals r) /\ line = sentence s) /\
     (In fallbackSentence (explanation r) <-> signals r = []) /\
     (signals r = [] -> confidence r = 50 /\ verdict r = NeedsReview)) /\
  (forall r,
     mockAnalyze now req = Some r ->
     List.length (explanation r) = Nat.max 1 (List.length (signals r)) /\
     (forall line, In line (explanation r) ->
        line = fallbackSentence \/ exists s, In s (signals r) /\ line = sentence s) /\
     (In fallbackSentence (explanation r) <-> signals r = []) /\
     (signals r = [] -> confidence r = 50 /\ verdict r = NeedsReview)).
Proof.
  assert (Hret : forall r, mockAnalyze now req = Some r ->
     List.length (explanation r) = Nat.max 1 (List.length (signals r)) /\
     (forall line, In line (explanation r) ->
        line = fallbackSentence \/ exists s, In s (signals r) /\ line = sentence s) /\
     (In fallbackSentence (explanation r) <-> signals r = []) /\
     (signals r = [] -> confidence r = 50 /\ verdict r = NeedsReview)).
  { intros r Hr. destruct (mockAnalyze_returns now req r Hr) as [lower [_ ->]].
    cbn [signals explanation confidence verdict].
    split; [apply explain_collect_length|].
    split; [intro line; rewrite explain_along; apply explainAlong_lines|].
    split.
    - split.
      + intro Hin. rewrite explain_along in Hin.
        destruct (collectSignals now (content req) lower) as [|s l] eqn:E;
          [reflexivity|exfalso].
        rewrite <- explain_along, (explain_present s (s :: l)) in Hin by now left.
        apply in_map_iff in Hin.
        destruct Hin as [x [Hx _]]. now apply sentence_not_fallback in Hx.
      + intros ->. now left.
    - intros ->. split; reflexivity. }
  split; [|exact Hret].
  intro Hread. destruct (mockAnalyze_total now req Hread) as [r Hr].
  exists r. split; [assumption | now apply Hret].
Qed.

Lemma X3_witness :
  exists r,
    mockAnalyze clock2026
      (text (Js.lit "The weather was mild and pleasant today.")) = Some r /\
    confidence r = 50 /\ verdict r = NeedsReview /\
    In fallbackSentence (explanation r).
Proof.
  destruct (X3_explanation_matches_signals clock2026
              (text (Js.lit "The weather was mild and pleasant today.")))
    as [H _].
  destruct (H (readable_Str _)) as [r [Hr [_ [_ [Hfall Hnone]]]]].
  assert (Hs : signals r = []).
  { vm_compute in Hr. injection Hr as <-. reflexivity. }
  exists r. split; [assumption|].
  destruct (Hnone Hs) as [Hc Hv].
  split; [assumption|]. split; [assumption|]. now apply Hfall.
Defined.

(** X4.  A confidence is one of 0, 5, ..., 60 or 75, and each of these is
    the confidence of some array of tags; 65 and 70 are never seen. *)
Theorem X4_confidence_values (v : Z) :
  (exists sigs, fakeConfidenceFromSignals sigs = v) <-> In v confidenceValues.
Proof.
  split.
  - intros [sigs <-]. unfold fakeConfidenceFromSignals.
    destruct (has sigs ManyContradictions), (has sigs AuthoritativeSources),
      (has sigs FabricatedDates), (has sigs NoSources),
      (has sigs ImageManipulated); vm_compute; tauto.
  - unfold confidenceValues. simpl.
    intros [<-|[<-|[<-|[<-|[<-|[<-|[<-|[<-|[<-|[<-|[<-|[<-|[<-|[<-|[]]]]]]]]]]]]]]].
    + now exists [ManyContradictions; FabricatedDates].
    + now exists [FabricatedDates; ImageManipulated].
    + now exists [NoSources; ImageManipulated].
    + now exists [NoSources; FabricatedDates].
    + now exists [ManyContradictions].
    + now exists [ImageManipulated].
    + now exists [FabricatedDates].
    + now exists [NoSources].
    + now exists [AuthoritativeSources; NoSources; FabricatedDates].
    + now exists [AuthoritativeSources; ManyContradictions].
    + now exists [].
    + now exists [AuthoritativeSources; FabricatedDates].
    + now exists [AuthoritativeSources; NoSources].
    + now exists [AuthoritativeSources].
Qed.

Lemma X4_witness :
  In (fakeConfidenceFromSignals [Clickbait; ImageManipulated; AuthoritativeSources])
     confidenceValues /\
  ~ (exists sigs, fakeConfidenceFromSignals sigs = 65) /\
  ~ (exists sigs, fakeConfidenceFromSignals sigs = 70).
Proof.
  split; [|split].
  - apply X4_confidence_values. now eexists.
  - intro H. apply X4_confidence_values in H. simpl in H.
    repeat (destruct H as [H|H]; [discriminate H|]). exact H.
  - intro H. apply X4_confidence_values in H. simpl in H.
    repeat (destruct H as [H|H]; [discriminate H|]). exact H.
Defined.

Lemma verdict_without_authority_tests (sigs : list Signal) :
  has sigs AuthoritativeSources = false ->
  (verdictOf (fakeConfidenceFromSignals sigs) = LikelyFake <->
   (has sigs ManyContradictions || has sigs FabricatedDates
    || has sigs NoSources || has sigs ImageManipulated)%bool = true) /\
  (verdictOf (fakeConfidenceFromSignals sigs) = NeedsReview <->
   (has sigs ManyContradictions || has sigs FabricatedDates
    || has sigs NoSources || has sigs ImageManipulated)%bool = false).
Proof.
  intro Ha. unfold fakeConfidenceFromSignals. rewrite Ha.
  destruct (has sigs ManyContradictions), (has sigs FabricatedDates),
    (has sigs NoSources), (has sigs ImageManipulated);
    cbv; intuition congruence.
Qed.

Lemma negative_tag (s : Signal) :
  delta s < 0 <->
  s = ManyContradictions \/ s = FabricatedDates \/ s = NoSources
  \/ s = ImageManipulated.
Proof.
  destruct s; simpl; split; intro H; try lia; try tauto;
    repeat (destruct H as [H|H]; try discriminate H); discriminate H.
Qed.

Lemma some_negative_tests (sigs : list Signal) :
  (has sigs ManyContradictions || has sigs FabricatedDates
   || has sigs NoSources || has sigs ImageManipulated)%bool = true <->
  exists s, In s sigs /\ delta s < 0.
Proof.
  rewrite !orb_true_iff, !has_In. split.
  - intros [[[H|H]|H]|H]; eexists; (split; [exact H | simpl; lia]).
  - intros [s [Hin Hd]]. apply negative_tag in Hd.
    destruct Hd as [->|[->|[->| ->]]]; tauto.
Qed.

(** X5.  Without AuthoritativeSources in the array, one tag of negative
    weight is enough for LikelyFake, and the verdict is NeedsReview exactly
    when there is none. *)
Theorem X5_verdict_without_authority (sigs : list Signal) :
  ~ In AuthoritativeSources sigs ->
  (verdictOf (fakeConfidenceFromSignals sigs) = LikelyFake <->
   exists s, In s sigs /\ delta s < 0) /\
  (verdictOf (fakeConfidenceFromSignals sigs) = NeedsReview <->
   forall s, In s sigs -> 0 <= delta s).
Proof.
  intro Ha. apply has_false_not_In in Ha.
  destruct (verdict_without_authority_tests sigs Ha) as [Hfake Hreview].
  split.
  - now rewrite Hfake, some_negative_tests.
  - rewrite Hreview. split.
    + intros Hnone s Hin. destruct (Z.lt_ge_cases (delta s) 0) as [Hd|Hd];
        [|assumption].
      assert (Hsome : exists s, In s sigs /\ delta s < 0) by eauto.
      apply some_negative_tests in Hsome. congruence.
    + intro Hall. apply not_true_is_false. intro Hsome.
      apply some_negative_tests in Hsome. destruct Hsome as [s [Hin Hd]].
      specialize (Hall s Hin). lia.
Qed.

Lemma X5_witness :
  verdictOf (fakeConfidenceFromSignals [TooShort; NoSources]) = LikelyFake /\
  verdictOf (fakeConfidenceFromSignals [TooShort; Clickbait]) = NeedsReview.
Proof.
  split.
  - apply (X5_verdict_without_authority [TooShort; NoSources]).
    + simpl. intuition discriminate.
    + exists NoSources. simpl. split; [tauto | lia].
  - apply (X5_verdict_without_authority [TooShort; Clickbait]).
    + simpl. intuition discriminate.
    + intros s [<-|[<-|[]]]; simpl; lia.
Defined.

(** ** Further properties of the date block *)

Lemma matchHere_self (r : Js.regex) (s m : Js.str) :
  Js.matchHere r s = Some m -> Js.matchHere r m = Some m.
Proof.
  revert s m. induction r as [|i r IH]; intros s m; simpl.
  - now intros [= <-].
  - destruct s as [|c s]; [discriminate|].
    destruct (Js.item_matches i c) eqn:Ei; [|discriminate].
    destruct (Js.matchHere r s) as [m'|] eqn:E; [|discriminate].
    intros [= <-]. now rewrite Ei, (IH _ _ E).
Qed.

Lemma digitVal_range (c : Js.codeunit) :
  Js.isDigit c = true -> 0 <= Js.digitVal c <= 9.
Proof.
  unfold Js.isDigit, Js.digitVal. rewrite between_iff. lia.
Qed.

(** A window matched by [20\d{2}-\d{2}-\d{2}] is ten characters, the digits
    where the expression asks for them. *)
Lemma iso20_shape (s tok : Js.str) :
  Js.matchHere iso20Date s = Some tok ->
  exists c3 c4 c6 c7 c9 c10,
    tok = [Js.unitOf "2"; Js.unitOf "0"; c3; c4; Js.hyphen; c6; c7; Js.hyphen;
           c9; c10] /\
    Js.isDigit c3 = true /\ Js.isDigit c4 = true /\ Js.isDigit c6 = true /\
    Js.isDigit c7 = true /\ Js.isDigit c9 = true /\ Js.isDigit c10 = true.
Proof.
  unfold iso20Date. cbn [Js.matchHere].
  destruct s as [|c1 s]; [discriminate|].
  destruct (Js.item_matches (Js.Lit (Js.unitOf "2")) c1) eqn:E1; [|discriminate].
  destruct s as [|c2 s]; [discriminate|].
  destruct (Js.item_matches (Js.Lit (Js.unitOf "0")) c2) eqn:E2; [|discriminate].
  destruct s as [|c3 s]; [discriminate|].
  destruct (Js.item_matches Js.Digit c3) eqn:E3; [|discriminate].
  destruct s as [|c4 s]; [discriminate|].
  destruct (Js.item_matches Js.Digit c4) eqn:E4; [|discriminate].
  destruct s as [|c5 s]; [discriminate|].
  destruct (Js.item_matches (Js.Lit Js.hyphen) c5) eqn:E5; [|discriminate].
  destruct s as [|c6 s]; [discriminate|].
  destruct (Js.item_matches Js.Digit c6) eqn:E6; [|discriminate].
  destruct s as [|c7 s]; [discriminate|].
  destruct (Js.item_matches Js.Digit c7) eqn:E7; [|discriminate].
  destruct s as [|c8 s]; [discriminate|].
  destruct (Js.item_matches (Js.Lit Js.hyphen) c8) eqn:E8; [|discriminate].
  destruct s as [|c9 s]; [discriminate|].
  destruct (Js.item_matches Js.Digit c9) eqn:E9; [|discriminate].
  destruct s as [|c10 s]; [discriminate|].
  destruct (Js.item_matches Js.Digit c10) eqn:E10; [|discriminate].
  cbn [option_map]. intros [= <-].
  cbn [Js.item_matches] in *.
  apply N.eqb_eq in E1, E2, E5, E8. subst c1 c2 c5 c8.
  exists c3, c4, c6, c7, c9, c10. tauto.
Qed.

Lemma iso20_fields (s tok : Js.str) :
  Js.matchHere iso20Date s = Some tok ->
  2000 <= yearOf tok <= 2099 /\
  0 <= monthOf tok <= 99 /\ 0 <= dayOf tok <= 99.
Proof.
  intro H. destruct (iso20_shape _ _ H)
    as [c3 [c4 [c6 [c7 [c9 [c10 [-> [H3 [H4 [H6 [H7 [H9 H10]]]]]]]]]]]].
  apply digitVal_range in H3, H4, H6, H7, H9, H10.
  unfold yearOf, monthOf, dayOf, Js.substring.
  cbn [skipn firstn Js.digitsVal].
  change (Js.digitVal (Js.unitOf "2")) with 2.
  change (Js.digitVal (Js.unitOf "0")) with 0. lia.
Qed.

Lemma Date_parse_fields (s tok : Js.str) :
  Js.matchHere iso20Date s = Some tok ->
  Js.Date_parse tok =
  if ((1 <=? monthOf tok) && (monthOf tok <=? 12)
      && (1 <=? dayOf tok) && (dayOf tok <=? 31))%bool
  then Some (Js.MakeDay (yearOf tok) (monthOf tok) (dayOf tok) * Js.msPerDay)
  else None.
Proof.
  intro H. unfold Js.Date_parse.
  rewrite (matchHere_mono _ _ iso20_le_iso _ _ (matchHere_self _ _ _ H)).
  now rewrite Nat.eqb_refl.
Qed.

Lemma regexMatch_here (r : Js.regex) (s tok : Js.str) :
  Js.regexMatch r s = Some tok -> exists rest, Js.matchHere r rest = Some tok.
Proof.
  intro H. apply regexMatch_leftmost in H.
  destruct H as [_ [rest [_ [H _]]]]. eauto.
Qed.

Lemma MakeDay_21st_century (y mo d : Z) :
  2000 <= y <= 2099 -> 1 <= mo <= 12 -> 1 <= d <= 31 ->
  Js.MakeDay 2000 1 1 * Js.msPerDay <= Js.MakeDay y mo d * Js.msPerDay
  <= lastDay2099.
Proof.
  intros Hy Hm Hd.
  unfold Js.MakeDay, Js.DayFromYear, Js.msPerDay, lastDay2099.
  assert (Hl : Js.InLeapYear y = true -> y mod 4 = 0).
  { unfold Js.InLeapYear. rewrite andb_true_iff, Z.eqb_eq. tauto. }
  assert (Hs : 0 <= Js.monthStart (Js.InLeapYear y) mo
               /\ (Js.InLeapYear y = true -> Js.monthStart true mo <= 335)
               /\ Js.monthStart false mo <= 334).
  { assert (Hc : mo = 1 \/ mo = 2 \/ mo = 3 \/ mo = 4 \/ mo = 5 \/ mo = 6 \/
                 mo = 7 \/ mo = 8 \/ mo = 9 \/ mo = 10 \/ mo = 11 \/ mo = 12)
      by lia.
    destruct (Js.InLeapYear y);
      repeat (destruct Hc as [->|Hc]; [simpl; lia|]); subst mo; simpl; lia. }
  destruct (Js.InLeapYear y) eqn:El.
  - specialize (Hl eq_refl). destruct Hs as [Hs0 [Hs1 _]]. specialize (Hs1 eq_refl).
    change ((2000 - 1969) / 4) with 7. change ((2000 - 1901) / 100) with 0.
    change ((2000 - 1601) / 400) with 0. simpl (Js.monthStart _ 1).
    Z.div_mod_to_equations. lia.
  - destruct Hs as [Hs0 [_ Hs1]].
    change ((2000 - 1969) / 4) with 7. change ((2000 - 1901) / 100) with 0.
    change ((2000 - 1601) / 400) with 0. simpl (Js.monthStart _ 1).
    Z.div_mod_to_equations. lia.
Qed.

Lemma collect_clock_other (now now' : Z) (c : Js.value) (lower : Js.str)
      (s : Signal) :
  s <> FabricatedDates ->
  has (collectSignals now c lower) s = has (collectSignals now' c lower) s.
Proof.
  intro Hs. destruct s; try (now contradiction Hs).
  - now rewrite !collect_TooShort.
  - now rewrite !collect_Clickbait.
  - now rewrite !collect_NoSources.
  - now rewrite !collect_ImageManipulated.
  - now rewrite !collect_AuthoritativeSources.
  - now rewrite !collect_ManyContradictions.
Qed.

Lemma futureDateFound_earlier (now now' : Z) (lower : Js.str) :
  now <= now' ->
  futureDateFound now' lower = true -> futureDateFound now lower = true.
Proof.
  intros Hle H. apply futureDateFound_iff in H.
  destruct H as [tok [ms [Hm [Hp Hlt]]]].
  apply futureDateFound_iff. exists tok, ms. repeat split; trivial. lia.
Qed.

(** X6.  As the clock advances FabricatedDates can only leave the array:
    between two calls on the same request the later one has the tag only
    if the earlier one has it, every other tag is in both arrays or in
    neither, and the confidence of the later call is not below that of the
    earlier one.  Every content that can be read has both results. *)
Theorem X6_later_clock_drops_dates (now now' : Z) (req : AnalysisRequest) :
  now <= now' ->
  (Js.readable (content req) ->
   exists r r',
     mockAnalyze now req = Some r /\
     mockAnalyze now' req = Some r' /\
     (In FabricatedDates (signals r') -> In FabricatedDates (signals r)) /\
     (forall s, s <> FabricatedDates -> (In s (signals r) <-> In s (signals r'))) /\
     confidence r <= confidence r') /\
  (forall r r',
     mockAnalyze now req = Some r ->
     mockAnalyze now' req = Some r' ->
     (In FabricatedDates (signals r') -> In FabricatedDates (signals r)) /\
     (forall s, s <> FabricatedDates -> (In s (signals r) <-> In s (signals r'))) /\
     confidence r <= confidence r').
Proof.
  intro Hle.
  assert (Hret : forall r r',
     mockAnalyze now req = Some r ->
     mockAnalyze now' req = Some r' ->
     (In FabricatedDates (signals r') -> In FabricatedDates (signals r)) /\
     (forall s, s <> FabricatedDates -> (In s (signals r) <-> In s (signals r'))) /\
     confidence r <= confidence r').
  { intros r r' Hr Hr'.
    destruct (mockAnalyze_returns now req r Hr) as [lower [Hl ->]].
    destruct (mockAnalyze_returns now' req r' Hr') as [lower' [Hl' ->]].
    assert (lower' = lower) by congruence. subst lower'.
    cbn [signals confidence].
    split.
    { rewrite !In_FabricatedDates. now apply futureDateFound_earlier. }
    split.
    { intros s Hs. rewrite <- !has_In.
      now rewrite (collect_clock_other now now' _ _ s Hs). }
    unfold fakeConfidenceFromSignals.
    rewrite (collect_clock_other now now' _ _ ManyContradictions) by discriminate.
    rewrite (collect_clock_other now now' _ _ AuthoritativeSources) by discriminate.
    rewrite (collect_clock_other now now' _ _ NoSources) by discriminate.
    rewrite (collect_clock_other now now' _ _ ImageManipulated) by discriminate.
    rewrite !collect_FabricatedDates.
    destruct (futureDateFound now' lower) eqn:E'.
    - rewrite (futureDateFound_earlier now now' lower Hle E'). lia.
    - unfold clamp.
      destruct (futureDateFound now lower),
        (has (collectSignals now' (content req) lower) ManyContradictions),
        (has (collectSignals now' (content req) lower) AuthoritativeSources),
        (has (collectSignals now' (content req) lower) NoSources),
        (has (collectSignals now' (content req) lower) ImageManipulated); lia. }
  split; [|exact Hret].
  intro Hread.
  destruct (mockAnalyze_total now req Hread) as [r Hr].
  destruct (mockAnalyze_total now' req Hread) as [r' Hr'].
  exists r, r'. split; [assumption|]. split; [assumption|]. now apply Hret.
Qed.

Lemma X6_witness :
  exists r r',
    mockAnalyze clock2026 (text (Js.lit "The bill was signed on 2030-06-15.")) = Some r /\
    mockAnalyze 1907712000000 (text (Js.lit "The bill was signed on 2030-06-15."))
      = Some r' /\
    confidence r <= confidence r'.
Proof.
  destruct (X6_later_clock_drops_dates clock2026 1907712000000
              (text (Js.lit "The bill was signed on 2030-06-15.")))
    as [H _]; [unfold clock2026; lia|].
  destruct (H (readable_Str _)) as [r [r' [Hr [Hr' [_ [_ Hc]]]]]].
  exists r, r'. repeat split; assumption.
Defined.

Lemma fires_fields (now : Z) (lower : Js.str) :
  futureDateFound now lower = true <->
  exists tok,
    Js.regexMatch iso20Date lower = Some tok /\
    1 <= monthOf tok <= 12 /\ 1 <= dayOf tok <= 31 /\
    now < Js.MakeDay (yearOf tok) (monthOf tok) (dayOf tok) * Js.msPerDay.
Proof.
  rewrite futureDateFound_iff. split.
  - intros [tok [ms [Hm [Hp Hlt]]]]. exists tok. split; [assumption|].
    destruct (regexMatch_here _ _ _ Hm) as [rest Hrest].
    rewrite (Date_parse_fields _ _ Hrest) in Hp.
    destruct ((1 <=? monthOf tok) && (monthOf tok <=? 12)
              && (1 <=? dayOf tok) && (dayOf tok <=? 31))%bool eqn:E;
      [|discriminate].
    rewrite !andb_true_iff, !Z.leb_le in E. injection Hp as <-. lia.
  - intros [tok [Hm [Hmo [Hd Hlt]]]].
    destruct (regexMatch_here _ _ _ Hm) as [rest Hrest].
    exists tok. eexists. split; [assumption|].
    rewrite (Date_parse_fields _ _ Hrest).
    replace ((1 <=? monthOf tok) && (monthOf tok <=? 12)
             && (1 <=? dayOf tok) && (dayOf tok <=? 31))%bool with true.
    + split; [reflexivity | assumption].
    + symmetry. rewrite !andb_true_iff, !Z.leb_le. lia.
Qed.

Lemma no_dates_after_2099 (now : Z) (lower : Js.str) :
  lastDay2099 <= now -> futureDateFound now lower = false.
Proof.
  intro Hnow. apply not_true_is_false. rewrite fires_fields.
  intros [tok [Hm [Hmo [Hd Hlt]]]].
  destruct (regexMatch_here _ _ _ Hm) as [rest Hrest].
  destruct (iso20_fields _ _ Hrest) as [Hy _].
  pose proof (MakeDay_21st_century _ _ _ Hy Hmo Hd). lia.
Qed.

(** X7.  From 2099-12-31T00:00:00Z on, FabricatedDates is in no array,
    whatever the content: the dates that the block reads are of the years
    2000 to 2099. *)
Theorem X7_no_fabricated_dates_after_2099 (now : Z) (c : Js.value) :
  lastDay2099 <= now ->
  (Js.readable c ->
   exists sigs,
     extractSignals now c = Some sigs /\ ~ In FabricatedDates sigs) /\
  (forall sigs, extractSignals now c = Some sigs -> ~ In FabricatedDates sigs).
Proof.
  intro Hnow.
  assert (Hret : forall sigs, extractSignals now c = Some sigs ->
                              ~ In FabricatedDates sigs).
  { intros sigs Hs. unfold extractSignals in Hs.
    destruct (mockAnalyze now (mkRequest KText c)) as [r|] eqn:Hr;
      [|discriminate].
    destruct (mockAnalyze_returns _ _ _ Hr) as [lower [_ ->]].
    cbn in Hs. injection Hs as <-.
    rewrite In_FabricatedDates, (no_dates_after_2099 now lower Hnow).
    discriminate. }
  split; [|exact Hret].
  intro Hread. destruct (lowered_total c Hread) as [lower Hl].
  exists (collectSignals now c lower).
  pose proof (extractSignals_lowered now c lower Hl) as He.
  split; [assumption | now apply Hret].
Qed.

Lemma X7_witness :
  exists sigs,
    extractSignals 4102444800000
      (Js.Str (Js.lit "The bill was signed on 2099-12-31.")) = Some sigs /\
    ~ In FabricatedDates sigs.
Proof.
  destruct (X7_no_fabricated_dates_after_2099 4102444800000
              (Js.Str (Js.lit "The bill was signed on 2099-12-31.")))
    as [H _]; [unfold lastDay2099; lia|].
  apply H, readable_Str.
Defined.

(** X8.  FabricatedDates is in the array exactly when the leftmost token
    [20dd-dd-dd] of the lower-cased text has a month from 1 to 12, a day
    from 1 to 31, and its day, counted from the epoch with the day carried
    over the end of a short month, starts after the clock.  A token with
    month 00 or above 12, or with day 00 or above 31, never fires. *)
Theorem X8_fabricated_dates_by_fields (now : Z) (c : Js.value) :
  Js.readable c ->
  exists lower sigs,
    lowered c = Some lower /\
    extractSignals now c = Some sigs /\
    (In FabricatedDates sigs <->
       exists tok,
         Js.regexMatch iso20Date lower = Some tok /\
         1 <= monthOf tok <= 12 /\ 1 <= dayOf tok <= 31 /\
         now < Js.MakeDay (yearOf tok) (monthOf tok) (dayOf tok) * Js.msPerDay) /\
    (forall tok,
       Js.regexMatch iso20Date lower = Some tok ->
       2000 <= yearOf tok <= 2099 /\
       (monthOf tok = 0 \/ 12 < monthOf tok \/ dayOf tok = 0 \/ 31 < dayOf tok ->
        ~ In FabricatedDates sigs)).
Proof.
  intro Hread. destruct (lowered_total c Hread) as [lower Hl].
  exists lower, (collectSignals now c lower).
  split; [assumption|].
  split; [now apply extractSignals_lowered|].
  rewrite In_FabricatedDates.
  split; [apply fires_fields|].
  intros tok Hm. destruct (regexMatch_here _ _ _ Hm) as [rest Hrest].
  split; [apply (iso20_fields _ _ Hrest)|].
  intros Hbad Hf. apply In_FabricatedDates, fires_fields in Hf.
  destruct Hf as [tok' [Hm' [Hmo [Hd _]]]].
  rewrite Hm in Hm'. injection Hm' as <-. lia.
Qed.

Lemma X8_witness :
  exists sigs,
    extractSignals clock2026 (Js.Str (Js.lit "The vote is set for 2099-13-01."))
      = Some sigs /\
    ~ In FabricatedDates sigs.
Proof.
  destruct (X8_fabricated_dates_by_fields clock2026
              (Js.Str (Js.lit "The vote is set for 2099-13-01."))
              (readable_Str _))
    as [lower [sigs [Hl [Hs [_ Hbad]]]]].
  rewrite lowered_Str in Hl. injection Hl as <-.
  exists sigs. split; [assumption|].
  apply (Hbad (Js.lit "2099-13-01")); [reflexivity|].
  right. left. vm_compute. reflexivity.
Defined.

(** ** Longer texts *)

Lemma occursIn_embed (sub s a b : Js.str) :
  occursIn sub s -> occursIn sub (a ++ s ++ b).
Proof.
  intros [x [y ->]]. exists (a ++ x), (y ++ b).
  now rewrite <- !app_assoc.
Qed.

(** X9.  Text put before and after a text never takes Clickbait,
    ImageManipulated, AuthoritativeSources or ManyContradictions out of its
    array: these four tags are kept by every longer text that holds the
    first one. *)
Theorem X9_keyword_tags_survive_context (now : Z) (a s b : Js.str) :
  exists sigs sigs',
    extractSignals now (Js.Str s) = Some sigs /\
    extractSignals now (Js.Str (a ++ s ++ b)) = Some sigs' /\
    forall t,
      t = Clickbait \/ t = ImageManipulated \/ t = AuthoritativeSources
      \/ t = ManyContradictions ->
      In t sigs -> In t sigs'.
Proof.
  rewrite (extractSignals_lowered _ _ _ (lowered_Str s)).
  rewrite (extractSignals_lowered _ _ _ (lowered_Str (a ++ s ++ b))).
  eexists. eexists. split; [reflexivity|]. split; [reflexivity|].
  rewrite !toLowerCase_app.
  intros t [->|[->|[->| ->]]].
  - rewrite !In_Clickbait. intros [H|H]; [left|right]; now apply occursIn_embed.
  - rewrite !In_ImageManipulated.
    intros [H|H]; [left|right]; now apply occursIn_embed.
  - rewrite !In_AuthoritativeSources.
    intros [H|[H|H]]; [left|right;left|right;right]; now apply occursIn_embed.
  - rewrite !In_ManyContradictions.
    intros [H|H]; [left|right]; now apply occursIn_embed.
Qed.

Lemma X9_witness :
  exists sigs',
    extractSignals clock2026
      (Js.Str (Js.lit "Breaking: " ++ Js.lit "SHOCKING deepfake"
               ++ Js.lit " spreads online.")) = Some sigs' /\
    In Clickbait sigs' /\ In ImageManipulated sigs'.
Proof.
  destruct (X9_keyword_tags_survive_context clock2026
              (Js.lit "Breaking: ") (Js.lit "SHOCKING deepfake")
              (Js.lit " spreads online."))
    as [sigs [sigs' [Hs [Hs' Hkeep]]]].
  vm_compute in Hs. injection Hs as <-.
  exists sigs'. split; [assumption|]. split; apply Hkeep; simpl; tauto.
Defined.

(** ** The component *)

Section AppFacts.

Variable Json : Type.
Variable bodyTruthy : Json -> bool.
Variable toISOString : Z -> Js.str.

Local Abbreviation State := (App.State Json).
Local Abbreviation Session := (App.Session Json).
Local Abbreviation Env := (App.Env Json).
Local Abbreviation Event := (App.Event Json).
Local Abbreviation HistoryEntry := (App.HistoryEntry Json).
Local Abbreviation analyze := (App.analyze toISOString).
Local Abbreviation analyzeEnd := (App.analyzeEnd toISOString).
Local Abbreviation step := (App.step toISOString).
Local Abbreviation run := (App.run toISOString).
Local Abbreviation shown := (App.shown bodyTruthy).

Lemma payload_is_string (st : State) :
  exists x, content (App.payloadOf st) = Js.Str x.
Proof. unfold App.payloadOf. destruct (App.tab st); simpl; eauto. Qed.

Lemma mockAnalyze_string (now : Z) (payload : AnalysisRequest) (x : Js.str) :
  content payload = Js.Str x ->
  exists r, mockAnalyze now payload = Some r /\ wellFormed r.
Proof.
  intro Hx.
  destruct (mockAnalyze_total now payload) as [r Hr];
    [rewrite Hx; apply readable_Str|].
  exists r. split; [assumption | now apply (mockAnalyze_wellFormed now payload)].
Qed.

Lemma resolve_cases (env : Env) (payload : AnalysisRequest) (x : Js.str) :
  content payload = Js.Str x ->
  (exists b, App.served env = Some b /\
             App.resolve env payload = Some (option_map App.Remote b)) \/
  (App.served env = None /\
   exists r, mockAnalyze (App.analysisClock env) payload = Some r /\
             wellFormed r /\
             App.resolve env payload = Some (Some (App.Local r))).
Proof.
  intro Hx. unfold App.served, App.resolve.
  destruct (mockAnalyze_string (App.analysisClock env) payload x Hx)
    as [r [Hr Hw]].
  rewrite Hr. cbn [option_map].
  destruct (App.reply env) as [[] [| |body]|].
  - right. split; [reflexivity | eauto].
  - left. exists None. split; reflexivity.
  - left. exists (Some body). split; reflexivity.
  - right. split; [reflexivity | eauto].
  - right. split; [reflexivity | eauto].
  - right. split; [reflexivity | eauto].
  - right. split; [reflexivity | eauto].
Qed.

Lemma resolve_payload (env : Env) (st : State) :
  (exists b, App.served env = Some b /\
             App.resolve env (App.payloadOf st) = Some (option_map App.Remote b)) \/
  (App.served env = None /\
   exists r, mockAnalyze (App.analysisClock env) (App.payloadOf st) = Some r /\
             wellFormed r /\
             App.resolve env (App.payloadOf st) = Some (Some (App.Local r))).
Proof.
  destruct (payload_is_string st) as [x Hx]. now apply (resolve_cases env _ x).
Qed.

Lemma analyze_result (env : Env) (st : State) :
  App.served env = None ->
  exists r,
    App.result (analyze env st) = Some (App.Local r) /\
    mockAnalyze (App.analysisClock env) (App.payloadOf st) = Some r.
Proof.
  intro Hn. unfold App.analyze, App.analyzeEnd.
  destruct (resolve_payload env st)
    as [[b [Hs _]] | [_ [r [Hr [Hw ->]]]]]; [congruence|].
  cbn. eauto.
Qed.


(** X11.  With nothing in the cell of the current tab (no text, no
    address, no file) and no usable reply from the server, [analyze] ends
    with the result of the empty content: TooShort alone, confidence 50,
    NeedsReview. *)
Theorem X11_empty_cell_falls_back_to_too_short (env : Env) (st : State) :
  content (App.payloadOf st) = Js.Str [] ->
  App.served env = None ->
  App.result (analyze env st) =
  Some (App.Local (mkResult NeedsReview 50 [TooShort] [sentence TooShort]
                     recommendedActionsList)).
Proof.
  intros Hc Hn.
  destruct (analyze_result env st Hn) as [r [Hres Hr]].
  rewrite Hres. do 2 f_equal.
  rewrite (mockAnalyze_falsy _ (App.payloadOf st)) in Hr by now rewrite Hc.
  change (mockAnalyze (App.analysisClock env) (text []))
    with (Some (mkResult NeedsReview 50 [TooShort] [sentence TooShort]
                  recommendedActionsList)) in Hr.
  now injection Hr as <-.
Qed.

Lemma In_firstn {A : Type} (n : nat) (l : list A) (x : A) :
  In x (firstn n l) -> In x l.
Proof.
  revert l. induction n as [|n IH]; intros [|a l]; simpl; try tauto.
  intros [->|H]; [now left | right; now apply IH].
Qed.

Lemma firstn_bound {A : Type} (n : nat) (l : list A) :
  (List.length (firstn n l) <= n)%nat.
Proof.
  revert l. induction n as [|n IH]; intros [|a l]; simpl; try lia.
  specialize (IH l). lia.
Qed.

Lemma invariant_initial : App.invariant (App.mkSession (@App.initial Json) None).
Proof.
  unfold App.invariant. cbn. repeat split; try discriminate; try tauto. lia.
Qed.

Lemma invariant_settle (st : State) (p : AnalysisRequest) (env : Env) :
  App.invariant (App.mkSession st (Some p)) ->
  App.invariant (App.mkSession (analyzeEnd p env st) None).
Proof.
  intros [Hlen [Hload [Hres [Hshown [Hhist Hfly]]]]]. cbn in *.
  destruct (Hfly p eq_refl) as [x Hx].
  unfold App.invariant, App.analyzeEnd.
  destruct (resolve_cases env p x Hx) as [[b [Hs ->]] | [Hn [r [Hr [Hw ->]]]]];
    cbn [App.app App.inflight App.history App.loading App.result].
  - split; [apply firstn_bound|].
    split; [split; [discriminate | intro H; now contradiction H]|].
    split; [discriminate|].
    split.
    { intros d Hd. cbn. eauto. }
    split; [|discriminate].
    intros h Hin. apply In_firstn in Hin. destruct Hin as [<-|Hin].
    + cbn. split; [eauto|]. destruct b; discriminate.
    + now apply Hhist.
  - split; [apply firstn_bound|].
    split; [split; [discriminate | intro H; now contradiction H]|].
    split; [discriminate|].
    split.
    { intros d [= <-]. cbn. eauto. }
    split; [|discriminate].
    intros h Hin. apply In_firstn in Hin. destruct Hin as [<-|Hin].
    + cbn. split; [eauto|]. intros r' [= <-]. split; [assumption | eauto].
    + now apply Hhist.
Qed.

Lemma invariant_step (s : Session) (ev : Event) :
  App.invariant s -> App.invariant (step s ev).
Proof.
  intro H. destruct s as [st infl].
  destruct ev as [k|x|x|f| | |env]; cbn [App.step App.app App.inflight].
  - destruct st. exact H.
  - destruct st. exact H.
  - destruct st. exact H.
  - destruct st. exact H.
  - destruct st. exact H.
  - destruct (App.loading st) eqn:El; [exact H|].
    destruct H as [Hlen [Hload [Hres [Hshown [Hhist Hfly]]]]]. cbn in *.
    unfold App.invariant. cbn.
    split; [assumption|].
    split; [split; [discriminate | reflexivity]|].
    split; [reflexivity|].
    split; [discriminate|].
    split; [assumption|].
    intros p [= <-]. apply payload_is_string.
  - destruct infl as [p|]; [now apply invariant_settle | exact H].
Qed.

Lemma invariant_run (evs : list Event) (s : Session) :
  App.invariant s -> App.invariant (run evs s).
Proof.
  revert s. induction evs as [|ev evs IH]; intros s H; [exact H|].
  apply IH. now apply invariant_step.
Qed.

(** X12.  After any run of events from the first render, the history has
    at most ten entries; the content of the query of each entry is a
    string, so its label can be drawn; and a result in the history that did
    not come from the server is well formed and is what [mockAnalyze]
    returns on the query stored beside it. *)
Theorem X12_history_bounded_and_sound (evs : list Event) :
  let st := App.app (run evs (App.mkSession App.initial None)) in
  (List.length (App.history st) <= 10)%nat /\
  forall h, In h (App.history st) ->
    (exists x, content (App.query h) = Js.Str x) /\
    (exists label, App.historyLabel h = Some label) /\
    (forall r, App.res h = Some (App.Local r) ->
       wellFormed r /\ exists now, mockAnalyze now (App.query h) = Some r).
Proof.
  destruct (invariant_run evs _ invariant_initial)
    as [Hlen [_ [_ [_ [Hhist _]]]]].
  split; [assumption|].
  intros h Hin. destruct (Hhist h Hin) as [[x Hx] Hloc].
  split; [eauto|]. split; [|assumption].
  unfold App.historyLabel. rewrite Hx. unfold Js.or.
  destruct (Js.truthy (Js.Str x)); cbn; eauto.
Qed.

(** X13.  After any run of events from the first render, [loading] is set
    exactly while a call of [analyze] waits for its reply; the [result]
    cell is empty while it is set; and a result in that cell is the result
    of the newest entry of the history. *)
Theorem X13_loading_and_result_coherent (evs : list Event) :
  let s := run evs (App.mkSession App.initial None) in
  (App.loading (App.app s) = true <-> App.inflight s <> None) /\
  (App.loading (App.app s) = true -> App.result (App.app s) = None) /\
  (forall d, App.result (App.app s) = Some d ->
     exists h rest, App.history (App.app s) = h :: rest /\ App.res h = Some d).
Proof.
  destruct (invariant_run evs _ invariant_initial)
    as [_ [Hload [Hres [Hshown _]]]].
  repeat split; try assumption; apply Hload.
Qed.

Lemma map_firstn {A B : Type} (f : A -> B) (n : nat) (l : list A) :
  map f (firstn n l) = firstn n (map f l).
Proof.
  revert l. induction n as [|n IH]; intros [|a l]; simpl; trivial.
  now rewrite IH.
Qed.

Lemma firstn_app_firstn {A : Type} (n : nat) (l m : list A) :
  firstn n (l ++ firstn n m) = firstn n (l ++ m).
Proof.
  rewrite !firstn_app, firstn_firstn. do 2 f_equal. lia.
Qed.

Lemma analyze_history (env : Env) (st : State) :
  exists resData,
    App.history (analyze env st) =
    firstn 10 (App.mkEntry (App.idClock env) (App.payloadOf st)
                 (toISOString (App.stampClock env)) resData
               :: App.history st).
Proof.
  unfold App.analyze, App.analyzeEnd.
  destruct (resolve_payload env st)
    as [[b [Hs ->]] | [Hn [r [Hr [Hw ->]]]]]; cbn; eauto.
Qed.

Lemma analyzeAll_ids (envs : list Env) (st : State) :
  firstn 10 (map App.id (App.history (App.analyzeAll toISOString envs st))) =
  firstn 10 (rev (map App.idClock envs) ++ map App.id (App.history st)).
Proof.
  revert st. induction envs as [|env envs IH]; intro st; [reflexivity|].
  change (App.analyzeAll toISOString (env :: envs) st)
    with (App.analyzeAll toISOString envs (analyze env st)).
  rewrite IH. destruct (analyze_history env st) as [d ->].
  rewrite map_firstn. cbn [map App.id rev].
  rewrite firstn_app_firstn, <- app_assoc. reflexivity.
Qed.

Lemma analyzeAll_bounded (envs : list Env) (st : State) :
  (List.length (App.history st) <= 10)%nat ->
  (List.length (App.history (App.analyzeAll toISOString envs st)) <= 10)%nat.
Proof.
  revert st. induction envs as [|env envs IH]; intros st H; [exact H|].
  change (App.analyzeAll toISOString (env :: envs) st)
    with (App.analyzeAll toISOString envs (analyze env st)).
  apply IH. destruct (analyze_history env st) as [d ->]. apply firstn_bound.
Qed.

(** X14.  After calls of [analyze] one after the other from the first
    render, the identifiers of the history are the clock readings of the
    last ten calls, the newest first; so the history has as many entries as
    there were calls, and ten from the tenth call on. *)
Theorem X14_history_newest_first (envs : list Env) :
  map App.id (App.history (App.analyzeAll toISOString envs App.initial)) =
    firstn 10 (rev (map App.idClock envs)) /\
  List.length (App.history (App.analyzeAll toISOString envs App.initial)) =
    Nat.min 10 (List.length envs).
Proof.
  assert (H : map App.id (App.history (App.analyzeAll toISOString envs App.initial))
              = firstn 10 (rev (map App.idClock envs))).
  { rewrite <- (firstn_all2 (n := 10)
                  (map App.id (App.history (App.analyzeAll toISOString envs App.initial)))).
    - rewrite analyzeAll_ids. cbn [App.history App.initial map].
      now rewrite app_nil_r.
    - rewrite length_map. apply analyzeAll_bounded. cbn. lia. }
  split; [exact H|].
  apply (f_equal (@List.length Z)) in H.
  rewrite length_map, length_firstn, length_rev, length_map in H. exact H.
Qed.

Lemma firstn_startsWith (n : nat) (s : Js.str) :
  Js.startsWith (firstn n s) s = true.
Proof.
  apply startsWith_occurs. exists (skipn n s). symmetry. apply firstn_skipn.
Qed.

(** X15.  The label of a history entry is never empty and never longer
    than 60 characters.  It is "(file)" when the content of the query is
    the empty string, and the first 60 characters of the content
    otherwise, the whole content when that is short enough. *)
Theorem X15_history_label (h : HistoryEntry) (x : Js.str) :
  content (App.query h) = Js.Str x ->
  exists label,
    App.historyLabel h = Some label /\
    (1 <= List.length label <= 60)%nat /\
    (x = [] -> label = Js.lit "(file)") /\
    (x <> [] ->
       label = firstn 60 x /\ Js.startsWith label x = true /\
       ((List.length x <= 60)%nat -> label = x)).
Proof.
  intro Hx. unfold App.historyLabel. rewrite Hx. unfold Js.or.
  destruct x as [|c x]; cbn [Js.truthy Js.toString option_map].
  - exists (Js.lit "(file)"). split; [reflexivity|]. split; [simpl; lia|].
    split; [reflexivity | intro H; now contradiction H].
  - eexists. split; [reflexivity|].
    split.
    { rewrite length_firstn. cbn [List.length]. lia. }
    split; [discriminate|]. intros _.
    split; [reflexivity|].
    split; [apply firstn_startsWith | apply firstn_all2].
Qed.

End AppFacts.


Lemma X11_witness :
  App.result
    (App.analyze (fun _ => Js.lit "2026-11-02T00:00:00.651Z")
       (App.mkEnv (@App.Rejected Js.value) clock2026 1793577600650 1793577600651)
       (App.mkState KImage (Js.lit "typed before") [] None false None []))
  = Some (App.Local (mkResult NeedsReview 50 [TooShort] [sentence TooShort]
                       recommendedActionsList)).
Proof.
  apply X11_empty_cell_falls_back_to_too_short; reflexivity.
Defined.

Lemma X12_witness :
  exists h,
    App.history
      (App.app
         (App.run (fun _ => Js.lit "stamp")
            [App.SetInput (Js.lit "You won't believe this"); App.ClickAnalyze;
             App.Settle (App.mkEnv (@App.Rejected Js.value) clock2026 1 2)]
            (App.mkSession App.initial None))) = [h] /\
    (exists label, App.historyLabel h = Some label) /\
    forall r, App.res h = Some (App.Local r) -> wellFormed r.
Proof.
  destruct (X12_history_bounded_and_sound Js.value (fun _ => Js.lit "stamp")
              [App.SetInput (Js.lit "You won't believe this"); App.ClickAnalyze;
               App.Settle (App.mkEnv (@App.Rejected Js.value) clock2026 1 2)])
    as [_ Hall].
  match type of Hall with
  | forall h, In h ?l -> _ =>
      assert (Hh : exists h, l = [h]) by (vm_compute; eauto)
  end.
  destruct Hh as [h Hh]. exists h. split; [assumption|].
  destruct (Hall h) as [_ [Hlabel Hlocal]]; [rewrite Hh; now left|].
  split; [assumption|]. intros r Hr. now destruct (Hlocal r Hr).
Defined.

Lemma X13_witness :
  App.loading
    (App.app
       (App.run (fun _ => Js.lit "stamp")
          [App.ClickAnalyze; App.SetInput (Js.lit "typed while waiting")]
          (App.mkSession (@App.initial Js.value) None))) = true /\
  App.result
    (App.app
       (App.run (fun _ => Js.lit "stamp")
          [App.ClickAnalyze; App.SetInput (Js.lit "typed while waiting")]
          (App.mkSession (@App.initial Js.value) None))) = None.
Proof.
  destruct (X13_loading_and_result_coherent Js.value (fun _ => Js.lit "stamp")
              [App.ClickAnalyze; App.SetInput (Js.lit "typed while waiting")])
    as [_ [Hnone _]].
  split; [reflexivity | apply Hnone; reflexivity].
Defined.

Lemma X15_witness :
  App.historyLabel
    (App.mkEntry 1 (mkRequest KImage (Js.Str [])) (Js.lit "stamp")
       (Some (App.Remote Js.Null)))
  = Some (Js.lit "(file)").
Proof.
  destruct (X15_history_label Js.value
              (App.mkEntry 1 (mkRequest KImage (Js.Str [])) (Js.lit "stamp")
                 (Some (App.Remote Js.Null))) [] eq_refl)
    as [label [Hl [_ [Hfile _]]]].
  rewrite Hl. f_equal. now apply Hfile.
Defined.

(** ** The badges *)

Lemma replaceHyphens_no_hyphen (s : Js.str) :
  Js.includes (App.replaceHyphens s) [Js.hyphen] = false.
Proof.
  induction s as [|c s IH]; [reflexivity|].
  unfold App.replaceHyphens in *. cbn [map Js.includes]. rewrite IH, orb_false_r.
  cbn [Js.startsWith]. rewrite andb_true_r.
  destruct (N.eqb_spec c Js.hyphen) as [->|Hne]; [reflexivity|].
  apply N.eqb_neq. congruence.
Qed.

(** X16.  The text of a badge is the tag with a space for each hyphen: as
    long as the tag, without a hyphen, and the tag itself when it has none.
    Two tags that differ have badges that differ, and a result shows one
    badge for each entry of its array, or the one badge that says there is
    no flag. *)
Theorem X16_badge_text :
  (forall s, List.length (App.replaceHyphens s) = List.length s) /\
  (forall s, ~ occursIn [Js.hyphen] (App.replaceHyphens s)) /\
  (forall s, ~ occursIn [Js.hyphen] s -> App.replaceHyphens s = s) /\
  (forall a b, App.badge a = App.badge b -> a = b) /\
  (forall sigs,
     List.length (App.badges sigs) = Nat.max 1 (List.length sigs)).
Proof.
  split; [intro s; apply length_map|].
  split.
  { intros s H. apply includes_occurs in H.
    now rewrite replaceHyphens_no_hyphen in H. }
  split.
  { induction s as [|c s IH]; intro H; [reflexivity|].
    unfold App.replaceHyphens in *. cbn [map].
    destruct (N.eqb_spec c Js.hyphen) as [->|Hne].
    - exfalso. apply H. now exists [], s.
    - f_equal. apply IH. intros [x [y ->]]. apply H.
      now exists (c :: x), y. }
  split.
  { intros a b. destruct a, b; trivial; intro H; vm_compute in H; discriminate H. }
  intros [|s sigs]; [reflexivity|].
  unfold App.badges. cbn [List.length Nat.eqb app]. now rewrite length_map.
Qed.

Lemma X16_witness :
  App.badge Clickbait = Js.lit "clickbait y" /\
  App.replaceHyphens (Js.lit "no flags") = Js.lit "no flags".
Proof.
  destruct X16_badge_text as [_ [_ [Hsame _]]].
  split; [reflexivity|].
  apply Hsame. intro H. apply includes_occurs in H. discriminate H.
Defined.

(** ** White space around a text *)

Lemma snoc_app (s : Js.str) (c : Js.codeunit) (b : Js.str) :
  s ++ c :: b = (s ++ [c]) ++ b.
Proof. now rewrite <- app_assoc. Qed.

Lemma solidEnds_head (h : Js.codeunit) (t : Js.str) :
  solidEnds (h :: t) = true -> Js.isWhiteSpace h = false.
Proof.
  unfold solidEnds. destruct (lastChar (h :: t)); [|discriminate].
  rewrite andb_true_iff, !negb_true_iff. tauto.
Qed.

Lemma includes_lead (c : Js.codeunit) (s sub : Js.str) :
  Js.isWhiteSpace c = true -> solidEnds sub = true ->
  Js.includes (c :: s) sub = Js.includes s sub.
Proof.
  intros Hc Hsub. destruct sub as [|h t]; [discriminate|].
  apply solidEnds_head in Hsub.
  cbn [Js.includes Js.startsWith].
  destruct (N.eqb_spec h c) as [->|Hne]; [congruence | reflexivity].
Qed.

Lemma startsWith_snoc (c : Js.codeunit) (sub x : Js.str) :
  match lastChar sub with Some l => l <> c | None => False end ->
  Js.startsWith sub (x ++ [c]) = Js.startsWith sub x.
Proof.
  revert x. induction sub as [|h t IH]; intros x Hl; [destruct Hl|].
  destruct x as [|d x]; cbn [app Js.startsWith].
  - destruct (N.eqb_spec h c) as [->|Hne]; [|reflexivity].
    destruct t; [now contradiction Hl | reflexivity].
  - destruct (N.eqb h d); [|reflexivity]. cbn [andb].
    destruct t as [|h' t]; [now destruct x|]. now apply IH.
Qed.

Lemma solidEnds_last (sub : Js.str) (c : Js.codeunit) :
  Js.isWhiteSpace c = true -> solidEnds sub = true ->
  match lastChar sub with Some l => l <> c | None => False end.
Proof.
  intros Hc. unfold solidEnds. destruct sub as [|h t]; [discriminate|].
  destruct (lastChar (h :: t)) as [l|]; [|discriminate].
  rewrite andb_true_iff, !negb_true_iff. intros [_ Hl] ->. congruence.
Qed.

Lemma includes_snoc (c : Js.codeunit) (s sub : Js.str) :
  Js.isWhiteSpace c = true -> solidEnds sub = true ->
  Js.includes (s ++ [c]) sub = Js.includes s sub.
Proof.
  intros Hc Hsub. pose proof (solidEnds_last sub c Hc Hsub) as Hl.
  induction s as [|d s IH].
  - change ([] ++ [c]) with [c]. now rewrite includes_lead.
  - change ((d :: s) ++ [c]) with (d :: (s ++ [c])).
    cbn [Js.includes]. rewrite IH.
    change (d :: (s ++ [c])) with ((d :: s) ++ [c]).
    now rewrite startsWith_snoc.
Qed.

Lemma includes_pad (a s b sub : Js.str) :
  allSpace a = true -> allSpace b = true -> solidEnds sub = true ->
  Js.includes (a ++ s ++ b) sub = Js.includes s sub.
Proof.
  unfold allSpace. intros Ha Hb Hsub.
  induction a as [|c a IH]; cbn [app].
  - clear Ha. revert s. induction b as [|c b IHb]; intro s.
    + now rewrite app_nil_r.
    + simpl in Hb. apply andb_true_iff in Hb. destruct Hb as [Hc Hb].
      rewrite snoc_app, (IHb Hb). now apply includes_snoc.
  - simpl in Ha. apply andb_true_iff in Ha. destruct Ha as [Hc Ha].
    rewrite includes_lead by assumption. now apply IH.
Qed.

Lemma matchHere_lead (r : Js.regex) (c : Js.codeunit) (s : Js.str) :
  rejects r c -> Js.matchHere r (c :: s) = None.
Proof.
  intros [Hne Hrej]. destruct r as [|i r]; [now contradiction Hne|].
  cbn [Js.matchHere]. now rewrite (Hrej i (or_introl eq_refl)).
Qed.

Lemma matchHere_snoc (r : Js.regex) (c : Js.codeunit) (x : Js.str) :
  rejects r c -> Js.matchHere r (x ++ [c]) = Js.matchHere r x.
Proof.
  intros [Hne Hrej]. revert x.
  induction r as [|i r IH]; intro x; [now contradiction Hne|].
  destruct x as [|d x]; cbn [app Js.matchHere].
  - now rewrite (Hrej i (or_introl eq_refl)).
  - destruct (Js.item_matches i d); [|reflexivity].
    destruct r as [|j r]; [reflexivity|].
    rewrite IH; [reflexivity | discriminate |].
    intros k Hk. apply Hrej. now right.
Qed.

Lemma regexMatch_lead (r : Js.regex) (c : Js.codeunit) (s : Js.str) :
  rejects r c -> Js.regexMatch r (c :: s) = Js.regexMatch r s.
Proof.
  intro H. cbn [Js.regexMatch]. now rewrite matchHere_lead.
Qed.

Lemma regexMatch_snoc (r : Js.regex) (c : Js.codeunit) (s : Js.str) :
  rejects r c -> Js.regexMatch r (s ++ [c]) = Js.regexMatch r s.
Proof.
  intro H. induction s as [|d s IH].
  - change ([] ++ [c]) with [c]. now rewrite regexMatch_lead.
  - change ((d :: s) ++ [c]) with (d :: (s ++ [c])).
    cbn [Js.regexMatch]. rewrite IH.
    change (d :: (s ++ [c])) with ((d :: s) ++ [c]).
    now rewrite matchHere_snoc.
Qed.

Lemma regexMatch_pad (r : Js.regex) (a s b : Js.str) :
  (forall c, Js.isWhiteSpace c = true -> rejects r c) ->
  allSpace a = true -> allSpace b = true ->
  Js.regexMatch r (a ++ s ++ b) = Js.regexMatch r s.
Proof.
  unfold allSpace. intros Hr Ha Hb.
  induction a as [|c a IH]; cbn [app].
  - clear Ha. revert s. induction b as [|c b IHb]; intro s.
    + now rewrite app_nil_r.
    + simpl in Hb. apply andb_true_iff in Hb. destruct Hb as [Hc Hb].
      rewrite snoc_app, (IHb Hb). now apply regexMatch_snoc, Hr.
  - simpl in Ha. apply andb_true_iff in Ha. destruct Ha as [Hc Ha].
    rewrite regexMatch_lead by now apply Hr. now apply IH.
Qed.

Lemma space_not_digit (c : Js.codeunit) :
  Js.isWhiteSpace c = true ->
  Js.isDigit c = false /\ N.eqb (Js.unitOf "2") c = false
  /\ N.eqb (Js.unitOf "0") c = false /\ N.eqb Js.hyphen c = false.
Proof.
  intro H. apply isWhiteSpace_iff in H.
  assert (Hd : Js.isDigit c = false).
  { destruct (Js.isDigit c) eqn:E; [|reflexivity].
    apply between_iff in E. lia. }
  split; [exact Hd|].
  repeat split; apply N.eqb_neq; intros <-; vm_compute in Hd; discriminate Hd
    || (cbn in H; lia).
Qed.

Lemma isoDate_rejects_space (c : Js.codeunit) :
  Js.isWhiteSpace c = true -> rejects Js.isoDate c /\ rejects iso20Date c.
Proof.
  intro H. destruct (space_not_digit c H) as [Hd [H2 [H0 Hh]]].
  split; (split; [discriminate|]); intros i Hi; simpl in Hi;
    repeat (destruct Hi as [<-|Hi]; [assumption|]); destruct Hi.
Qed.

Lemma futureDateFound_pad (now : Z) (a s b : Js.str) :
  allSpace a = true -> allSpace b = true ->
  futureDateFound now (a ++ s ++ b) = futureDateFound now s.
Proof.
  intros Ha Hb. unfold futureDateFound.
  rewrite !regexMatch_pad; trivial; intros c Hc;
    now apply isoDate_rejects_space.
Qed.

Lemma trimStart_lead (a s : Js.str) :
  allSpace a = true -> Js.trimStart (a ++ s) = Js.trimStart s.
Proof.
  unfold allSpace. induction a as [|c a IH]; intro Ha; [reflexivity|].
  simpl in Ha. apply andb_true_iff in Ha. destruct Ha as [Hc Ha].
  cbn [app Js.trimStart]. rewrite Hc. now apply IH.
Qed.

Lemma trimStart_space (b : Js.str) : allSpace b = true -> Js.trimStart b = [].
Proof.
  intro Hb. rewrite <- (app_nil_r b). now rewrite trimStart_lead.
Qed.

Lemma trimStart_app (s b : Js.str) :
  Js.trimStart (s ++ b) =
  match Js.trimStart s with
  | [] => Js.trimStart b
  | t => t ++ b
  end.
Proof.
  induction s as [|c s IH]; [reflexivity|].
  cbn [app Js.trimStart]. destruct (Js.isWhiteSpace c); [exact IH | reflexivity].
Qed.

Lemma trimEnd_snoc (c : Js.codeunit) (s : Js.str) :
  Js.isWhiteSpace c = true -> Js.trimEnd (s ++ [c]) = Js.trimEnd s.
Proof.
  intro Hc. induction s as [|d s IH]; cbn [app Js.trimEnd].
  - now rewrite Hc.
  - now rewrite IH.
Qed.

Lemma trimEnd_trail (t b : Js.str) :
  allSpace b = true -> Js.trimEnd (t ++ b) = Js.trimEnd t.
Proof.
  unfold allSpace. revert t. induction b as [|c b IH]; intros t Hb.
  - now rewrite app_nil_r.
  - simpl in Hb. apply andb_true_iff in Hb. destruct Hb as [Hc Hb].
    rewrite snoc_app, (IH _ Hb). now apply trimEnd_snoc.
Qed.

Lemma trim_pad (a s b : Js.str) :
  allSpace a = true -> allSpace b = true ->
  Js.trim (a ++ s ++ b) = Js.trim s.
Proof.
  intros Ha Hb. unfold Js.trim.
  rewrite trimStart_lead by assumption. rewrite trimStart_app.
  destruct (Js.trimStart s) as [|c t] eqn:E.
  - now rewrite trimStart_space.
  - now apply trimEnd_trail.
Qed.

Lemma tooShort_test (x : Js.str) :
  (negb (Js.truthy (Js.Str x))
   || Nat.ltb (List.length (Js.trim (Js.toLowerCase x))) 10)%bool
  = Nat.ltb (List.length (Js.trim (Js.toLowerCase x))) 10.
Proof. now destruct x. Qed.

Lemma collect_pad (now : Z) (a s b : Js.str) :
  allSpace a = true -> allSpace b = true ->
  collectSignals now (Js.Str (a ++ s ++ b)) (Js.toLowerCase (a ++ s ++ b)) =
  collectSignals now (Js.Str s) (Js.toLowerCase s).
Proof.
  intros Ha Hb. unfold collectSignals. rewrite !tooShort_test.
  rewrite !toLowerCase_app.
  unfold allSpace in Ha, Hb. rewrite <- lower_allSpace in Ha, Hb.
  fold (allSpace (Js.toLowerCase a)) in Ha.
  fold (allSpace (Js.toLowerCase b)) in Hb.
  rewrite trim_pad, futureDateFound_pad by assumption.
  now rewrite !includes_pad by (assumption || reflexivity).
Qed.

(** X17.  White space before and after a text changes nothing: the result
    for the padded text is the result for the text. *)
Theorem X17_padding_is_ignored (now : Z) (a s b : Js.str) :
  allSpace a = true -> allSpace b = true ->
  mockAnalyze now (text (a ++ s ++ b)) = mockAnalyze now (text s).
Proof.
  intros Ha Hb.
  rewrite (mockAnalyze_lowered now (text (a ++ s ++ b)) _ (lowered_Str _)).
  rewrite (mockAnalyze_lowered now (text s) _ (lowered_Str _)).
  cbn [content text]. now rewrite collect_pad.
Qed.

Lemma X17_witness :
  mockAnalyze clock2026
    (text (Js.lit "   " ++ Js.lit "Shocking news from the CDC" ++ Js.lit "  "))
  = mockAnalyze clock2026 (text (Js.lit "Shocking news from the CDC")).
Proof.
  apply X17_padding_is_ignored; reflexivity.
Defined.

(** ** Clearing, and typing while a call waits *)

Section AppTraces.

Variable Json : Type.
Variable toISOString : Z -> Js.str.

Local Abbreviation State := (App.State Json).
Local Abbreviation Session := (App.Session Json).
Local Abbreviation Env := (App.Env Json).
Local Abbreviation Event := (App.Event Json).
Local Abbreviation analyze := (App.analyze toISOString).
Local Abbreviation step := (App.step toISOString).
Local Abbreviation run := (App.run toISOString).

Lemma resolve_total (env : Env) (st : State) :
  exists resData, App.resolve env (App.payloadOf st) = Some resData.
Proof.
  destruct (resolve_payload Json env st)
    as [[b [_ H]] | [_ [r [_ [_ H]]]]]; eauto.
Qed.

Lemma analyze_local (env : Env) (st : State) :
  App.served env = None ->
  App.result (analyze env st) =
  option_map App.Local (mockAnalyze (App.analysisClock env) (App.payloadOf st)).
Proof.
  intro Hn. destruct (analyze_result Json toISOString env st Hn) as [r [-> ->]].
  reflexivity.
Qed.

(** X18.  The Clear button empties the three input cells: the text and the
    address become the empty string and the file becomes [null]; the tab,
    [loading], the result and the history stay as they are.  The payload
    built from the cleared state has the empty string as its content on
    whichever tab is open, so a call of [analyze] right after it, with no
    usable reply from the server, gives the result of the empty content. *)
Theorem X18_clear_then_analyze (env : Env) (st : State) :
  App.input (App.clear st) = [] /\
  App.url (App.clear st) = [] /\
  App.file (App.clear st) = None /\
  App.tab (App.clear st) = App.tab st /\
  App.loading (App.clear st) = App.loading st /\
  App.result (App.clear st) = App.result st /\
  App.history (App.clear st) = App.history st /\
  content (App.payloadOf (App.clear st)) = Js.Str [] /\
  (App.served env = None ->
   App.result (analyze env (App.clear st)) =
   Some (App.Local (mkResult NeedsReview 50 [TooShort] [sentence TooShort]
                      recommendedActionsList))).
Proof.
  assert (Hc : content (App.payloadOf (App.clear st)) = Js.Str []).
  { unfold App.payloadOf, App.clear. cbn. now destruct (App.tab st). }
  repeat split; [exact Hc|].
  intro Hn. rewrite (analyze_local env _ Hn).
  rewrite (mockAnalyze_falsy _ (App.payloadOf (App.clear st))) by now rewrite Hc.
  reflexivity.
Qed.

Lemma waiting_kept (evs : list Event) (st : State) (p : AnalysisRequest) :
  App.loading st = true ->
  (forall ev, In ev evs -> forall e, ev <> App.Settle e) ->
  exists st',
    run evs (App.mkSession st (Some p)) = App.mkSession st' (Some p) /\
    App.loading st' = true /\
    App.result st' = App.result st /\
    App.history st' = App.history st.
Proof.
  revert st. induction evs as [|ev evs IH]; intros st Hl Hev.
  - exists st. repeat split. exact Hl.
  - assert (Hstep : exists st1,
               step (App.mkSession st (Some p)) ev = App.mkSession st1 (Some p) /\
               App.loading st1 = true /\
               App.result st1 = App.result st /\
               App.history st1 = App.history st).
    { destruct ev as [k|x|x|f| | |env]; cbn [App.step App.app App.inflight].
      - eexists. split; [reflexivity|]. cbn. auto.
      - eexists. split; [reflexivity|]. cbn. auto.
      - eexists. split; [reflexivity|]. cbn. auto.
      - eexists. split; [reflexivity|]. cbn. auto.
      - eexists. split; [reflexivity|]. cbn. auto.
      - rewrite Hl. exists st. auto.
      - exfalso. apply (Hev (App.Settle env) (or_introl eq_refl) env eq_refl). }
    destruct Hstep as [st1 [Hs1 [Hl1 [Hr1 Hh1]]]].
    destruct (IH st1 Hl1) as [st' [Hrun [Hl' [Hr' Hh']]]].
    { intros ev' Hin. apply Hev. now right. }
    exists st'. unfold App.run in *. cbn [fold_left]. rewrite Hs1.
    split; [assumption|]. split; [assumption|]. split; congruence.
Qed.

(** X19.  What is analysed is what was in the cell of the open tab at the
    click.  Whatever is typed, cleared or clicked while the call waits for
    its reply (a second click on Analyze does nothing), the reply settles
    the call on the payload of the click: the value of [resData] for that
    payload is written to the [result] cell and stored in the new entry of
    the history, the history before the click follows the new entry, and
    [loading] is cleared. *)
Theorem X19_payload_is_fixed_at_the_click
        (st : State) (evs : list Event) (env : Env) :
  App.loading st = false ->
  (forall ev, In ev evs -> forall e, ev <> App.Settle e) ->
  exists resData,
    App.resolve env (App.payloadOf st) = Some resData /\
    App.inflight
      (run (App.ClickAnalyze :: evs ++ [App.Settle env]) (App.mkSession st None))
      = None /\
    App.loading
      (App.app (run (App.ClickAnalyze :: evs ++ [App.Settle env])
                  (App.mkSession st None))) = false /\
    App.result
      (App.app (run (App.ClickAnalyze :: evs ++ [App.Settle env])
                  (App.mkSession st None))) = resData /\
    App.history
      (App.app (run (App.ClickAnalyze :: evs ++ [App.Settle env])
                  (App.mkSession st None))) =
      firstn 10 (App.mkEntry (App.idClock env) (App.payloadOf st)
                   (toISOString (App.stampClock env)) resData
                 :: App.history st).
Proof.
  intros Hl Hev.
  destruct (resolve_total env st) as [resData Hres].
  exists resData. split; [assumption|].
  unfold App.run. cbn [fold_left]. rewrite fold_left_app.
  cbn [App.step App.app App.inflight]. rewrite Hl.
  destruct (waiting_kept evs (App.analyzeBegin st) (App.payloadOf st) eq_refl Hev)
    as [st' [Hrun [_ [_ Hh]]]].
  unfold App.run in Hrun. rewrite Hrun.
  cbn [fold_left App.step App.app App.inflight].
  unfold App.analyzeEnd. rewrite Hres. cbn. rewrite Hh. repeat split.
Qed.

End AppTraces.

Lemma X18_witness :
  App.input
    (App.clear (App.mkState KUrl (Js.lit "some text") (Js.lit "https://example.org")
                  (Some (App.mkFile (Js.lit "photo.png") 2048)) false
                  (@None (App.ResData Js.value)) [])) = [] /\
  App.file
    (App.clear (App.mkState KUrl (Js.lit "some text") (Js.lit "https://example.org")
                  (Some (App.mkFile (Js.lit "photo.png") 2048)) false
                  (@None (App.ResData Js.value)) [])) = None /\
  App.result
    (App.analyze (fun _ => Js.lit "stamp")
       (App.mkEnv (App.Responded true (@App.ParseError Js.value)) clock2026 1 2)
       (App.clear (App.mkState KUrl (Js.lit "some text") (Js.lit "https://example.org")
                     (Some (App.mkFile (Js.lit "photo.png") 2048)) false None [])))
  = Some (App.Local (mkResult NeedsReview 50 [TooShort] [sentence TooShort]
                       recommendedActionsList)).
Proof.
  destruct (X18_clear_then_analyze Js.value (fun _ => Js.lit "stamp")
              (App.mkEnv (App.Responded true (@App.ParseError Js.value)) clock2026 1 2)
              (App.mkState KUrl (Js.lit "some text") (Js.lit "https://example.org")
                 (Some (App.mkFile (Js.lit "photo.png") 2048)) false None []))
    as [Hi [_ [Hf [_ [_ [_ [_ [_ H]]]]]]]].
  split; [exact Hi|]. split; [exact Hf|].
  apply H. reflexivity.
Defined.

Lemma X19_witness :
  App.resolve (App.mkEnv (@App.Rejected Js.value) clock2026 1 2)
    (mkRequest KText (Js.Str (Js.lit "SHOCKING!")))
  = Some
      (App.result
         (App.app
            (App.run (fun _ => Js.lit "stamp")
               (App.ClickAnalyze
                :: [App.SetInput (Js.lit "typed later"); App.ClickAnalyze;
                    App.ClickClear]
                ++ [App.Settle (App.mkEnv (@App.Rejected Js.value) clock2026 1 2)])
               (App.mkSession
                  (App.mkState KText (Js.lit "SHOCKING!") [] None false None [])
                  None)))).
Proof.
  destruct (X19_payload_is_fixed_at_the_click Js.value (fun _ => Js.lit "stamp")
              (App.mkState KText (Js.lit "SHOCKING!") [] None false None [])
              [App.SetInput (Js.lit "typed later"); App.ClickAnalyze; App.ClickClear]
              (App.mkEnv (@App.Rejected Js.value) clock2026 1 2))
    as [resData [Hres [_ [_ [Hresult _]]]]].
  - reflexivity.
  - intros ev [<-|[<-|[<-|[]]]] e; discriminate.
  - rewrite Hresult. exact Hres.
Defined.

(** ** What the tests read of the lower-cased text *)

Lemma sameUnit_ascii (x y a : Js.codeunit) :
  x = y \/ (opaqueUnit x /\ opaqueUnit y) ->
  (a < 128)%N -> N.eqb a x = N.eqb a y.
Proof.
  intros [->|[[Hx _] [Hy _]]] Ha; [reflexivity|].
  rewrite (proj2 (N.eqb_neq a x)), (proj2 (N.eqb_neq a y)); [reflexivity | lia | lia].
Qed.

Lemma sameUnit_space (x y : Js.codeunit) :
  x = y \/ (opaqueUnit x /\ opaqueUnit y) ->
  Js.isWhiteSpace x = Js.isWhiteSpace y.
Proof. intros [->|[[_ Hx] [_ Hy]]]; congruence. Qed.

Lemma sameUnit_digit (x y : Js.codeunit) :
  x = y \/ (opaqueUnit x /\ opaqueUnit y) ->
  Js.isDigit x = Js.isDigit y.
Proof.
  intros [->|[[Hx _] [Hy _]]]; [reflexivity|].
  unfold Js.isDigit, Js.between.
  rewrite (proj2 (N.leb_gt x 57)), (proj2 (N.leb_gt y 57)) by lia.
  now rewrite !andb_false_r.
Qed.

Lemma sameUnit_item (i : Js.item) (x y : Js.codeunit) :
  asciiItem i = true ->
  x = y \/ (opaqueUnit x /\ opaqueUnit y) ->
  Js.item_matches i x = Js.item_matches i y.
Proof.
  destruct i as [|a]; cbn [asciiItem Js.item_matches]; intros Hi H.
  - now apply sameUnit_digit.
  - apply sameUnit_ascii; [assumption | now apply N.ltb_lt].
Qed.

Lemma item_matches_ascii (i : Js.item) (x : Js.codeunit) :
  asciiItem i = true -> Js.item_matches i x = true -> (x < 128)%N.
Proof.
  destruct i as [|a]; cbn [asciiItem Js.item_matches]; intros Hi H.
  - apply between_iff in H. lia.
  - apply N.ltb_lt in Hi. apply N.eqb_eq in H. now subst.
Qed.

Lemma startsWith_view (sub s t : Js.str) :
  asciiText sub = true -> sameView s t ->
  Js.startsWith sub s = Js.startsWith sub t.
Proof.
  intros Hsub Hv. revert sub Hsub.
  induction Hv as [|x y s t Hxy Hv IH]; intros [|a sub] Hsub; try reflexivity.
  cbn [asciiText forallb] in Hsub. apply andb_true_iff in Hsub.
  destruct Hsub as [Ha Hsub]. apply N.ltb_lt in Ha.
  cbn [Js.startsWith]. rewrite (sameUnit_ascii x y a Hxy Ha).
  f_equal. now apply IH.
Qed.

Lemma includes_view (sub s t : Js.str) :
  asciiText sub = true -> sameView s t ->
  Js.includes s sub = Js.includes t sub.
Proof.
  intros Hsub Hv. induction Hv as [|x y s t Hxy Hv IH].
  - reflexivity.
  - cbn [Js.includes]. rewrite IH.
    now rewrite (startsWith_view sub (x :: s) (y :: t) Hsub (Forall2_cons _ _ Hxy Hv)).
Qed.

Lemma matchHere_view (r : Js.regex) (s t : Js.str) :
  forallb asciiItem r = true -> sameView s t ->
  Js.matchHere r s = Js.matchHere r t.
Proof.
  intros Hr Hv. revert r Hr.
  induction Hv as [|x y s t Hxy Hv IH]; intros [|i r] Hr; try reflexivity.
  cbn [forallb] in Hr. apply andb_true_iff in Hr. destruct Hr as [Hi Hr].
  cbn [Js.matchHere]. rewrite <- (sameUnit_item i x y Hi Hxy).
  destruct (Js.item_matches i x) eqn:Em; [|reflexivity].
  pose proof (item_matches_ascii i x Hi Em) as Hx.
  assert (x = y) as <- by (destruct Hxy as [E|[[Ho _] _]]; [exact E | lia]).
  now rewrite (IH r Hr).
Qed.

Lemma regexMatch_view (r : Js.regex) (s t : Js.str) :
  forallb asciiItem r = true -> sameView s t ->
  Js.regexMatch r s = Js.regexMatch r t.
Proof.
  intros Hr Hv. induction Hv as [|x y s t Hxy Hv IH].
  - reflexivity.
  - cbn [Js.regexMatch].
    rewrite (matchHere_view r (x :: s) (y :: t) Hr (Forall2_cons _ _ Hxy Hv)).
    now rewrite IH.
Qed.

Lemma futureDateFound_view (now : Z) (s t : Js.str) :
  sameView s t -> futureDateFound now s = futureDateFound now t.
Proof.
  intro Hv. unfold futureDateFound.
  now rewrite !(regexMatch_view _ s t) by (reflexivity || assumption).
Qed.

Lemma trimStart_view (s t : Js.str) :
  sameView s t -> sameView (Js.trimStart s) (Js.trimStart t).
Proof.
  intro Hv. induction Hv as [|x y s t Hxy Hv IH]; [constructor|].
  cbn [Js.trimStart]. rewrite <- (sameUnit_space x y Hxy).
  destruct (Js.isWhiteSpace x); [exact IH | now constructor].
Qed.

Lemma trimEnd_view (s t : Js.str) :
  sameView s t -> sameView (Js.trimEnd s) (Js.trimEnd t).
Proof.
  intro Hv. induction Hv as [|x y s t Hxy Hv IH]; [constructor|].
  cbn [Js.trimEnd]. rewrite <- (sameUnit_space x y Hxy).
  destruct IH as [|x' y' s' t' Hxy' Hv'].
  - destruct (Js.isWhiteSpace x); constructor; [assumption | constructor].
  - constructor; [assumption|]. now constructor.
Qed.

Lemma trim_view (s t : Js.str) :
  sameView s t -> List.length (Js.trim s) = List.length (Js.trim t).
Proof.
  intro Hv. unfold Js.trim.
  apply (Forall2_length (trimEnd_view _ _ (trimStart_view _ _ Hv))).
Qed.

(** X20.  The tests of [mockAnalyze] read the lower-cased text through its
    ASCII code units, its white space and its length, and through nothing
    else: two texts of the same length that differ only where both hold a
    unit that is neither ASCII nor white space give the same array of tags
    and the same trimmed length.  So the array does not depend on the lower
    case that such units have. *)
Theorem X20_tests_read_ascii_and_space (now : Z) (c : Js.value) (lower lower' : Js.str) :
  sameView lower lower' ->
  List.length (Js.trim lower) = List.length (Js.trim lower') /\
  futureDateFound now lower = futureDateFound now lower' /\
  collectSignals now c lower = collectSignals now c lower'.
Proof.
  intro Hv.
  split; [now apply trim_view|].
  split; [now apply futureDateFound_view|].
  unfold collectSignals.
  rewrite (trim_view _ _ Hv), (futureDateFound_view now _ _ Hv).
  now rewrite !(includes_view _ lower lower') by (reflexivity || assumption).
Qed.

Lemma X20_witness :
  collectSignals clock2026 (Js.Str (Js.lit "Shocking " ++ [1053; 1054]%N))
    (Js.lit "shocking " ++ [1053; 1054]%N)
  = collectSignals clock2026 (Js.Str (Js.lit "Shocking " ++ [1053; 1054]%N))
      (Js.lit "shocking " ++ [1085; 1086]%N).
Proof.
  apply X20_tests_read_ascii_and_space.
  unfold sameView.
  repeat (constructor; [now left|]).
  repeat (constructor; [right; split; split; (reflexivity || (cbn; lia))|]).
  constructor.
Defined.
